(** * eip1193-accounts-provider: a shallow embedding

    The repository ships one function, [extendProviderWithAccounts], in two
    revisions:

    - [src/unnamed/part_000]: local transactions are signed with the account
      and submitted with [eth_sendRawTransaction] (module [RawSend]);
    - [src/src/index.ts]: local transactions go through a lazily built viem
      wallet client (module [ClientMediated]).

    Asynchronous handlers are embedded as resumptions ([prog]): a handler
    runs synchronously up to its next [await], where it hands a call to a
    collaborator (the wrapped provider, the impersonator, an account's signer,
    the wallet client) and waits for the promise to settle. *)

From Stdlib Require Import ZArith Ascii String List Lia.
From stdpp Require Import base option list gmap strings pretty.
Import ListNotations.
Local Open Scope string_scope.
Local Open Scope Z_scope.
#[local] Set Warnings "-clear-no-such-hyp".

(** ** Errors and completions *)

(** What a [throw] or a rejected promise carries.  [Error] is
    [new Error(message)]; [TypeError] and [SyntaxError] are raised by the
    language itself (property access on [undefined], [BigInt] of a malformed
    string); [Foreign] is whatever a collaborator rejected with. *)
Inductive error : Type :=
  | Error (message : string)
  | TypeError (message : string)
  | SyntaxError (message : string)
  | Foreign (reason : string).

(** A synchronous call either returns or throws; a promise either fulfils
    or rejects. *)
Inductive completion (A : Type) : Type :=
  | Normal (a : A)
  | Abrupt (e : error).
Arguments Normal {A} a.
Arguments Abrupt {A} e.

#[global] Instance completion_ret : MRet completion := fun _ a => Normal a.
#[global] Instance completion_bind : MBind completion := fun _ _ f c =>
  match c with
  | Normal a => f a
  | Abrupt e => Abrupt e
  end.

(** ** Strings: [toLowerCase], truthiness, [BigInt] *)

Definition lower_ascii (c : ascii) : ascii :=
  let n := N_of_ascii c in
  if ((65 <=? n) && (n <=? 90))%N then ascii_of_N (n + 32) else c.

(** [String.prototype.toLowerCase] on the ASCII range (addresses are
    ["0x"] followed by hexadecimal digits). *)
Fixpoint toLowerCase (s : string) : string :=
  match s with
  | EmptyString => EmptyString
  | String c r => String (lower_ascii c) (toLowerCase r)
  end.

(** [x ? _ : _] and [!x] for an optional string property: [undefined] and
    the empty string are falsy. *)
Definition truthy (x : option string) : bool :=
  match x with
  | Some s => negb (String.eqb s "")
  | None => false
  end.

Definition digit_value (base : Z) (c : ascii) : option Z :=
  let n := Z.of_N (N_of_ascii c) in
  let d :=
    if (48 <=? n) && (n <=? 57) then Some (n - 48)
    else if (97 <=? n) && (n <=? 122) then Some (n - 87)
    else if (65 <=? n) && (n <=? 90) then Some (n - 55)
    else None in
  match d with
  | Some v => if v <? base then Some v else None
  | None => None
  end.

Fixpoint digits_value (base : Z) (acc : Z) (s : string) : option Z :=
  match s with
  | EmptyString => Some acc
  | String c r =>
      match digit_value base c with
      | Some d => digits_value base (acc * base + d) r
      | None => None
      end
  end.

(** One or more digits in [base]. *)
Definition numeral (base : Z) (s : string) : option Z :=
  match s with
  | EmptyString => None
  | _ => digits_value base 0 s
  end.

Definition is_space (c : ascii) : bool :=
  let n := N_of_ascii c in
  ((n =? 32) || ((9 <=? n) && (n <=? 13)))%N.

Fixpoint trim_left (s : string) : string :=
  match s with
  | String c r => if is_space c then trim_left r else s
  | EmptyString => EmptyString
  end.

Fixpoint trim_right (s : string) : string :=
  match s with
  | EmptyString => EmptyString
  | String c r =>
      match trim_right r with
      | EmptyString => if is_space c then EmptyString else String c EmptyString
      | r' => String c r'
      end
  end.

(** [StringToBigInt]: surrounding white space is dropped; the empty string
    is zero; a literal is a signed decimal numeral or an unsigned numeral
    with prefix [0x], [0o] or [0b] (either case). *)
Definition StringToBigInt (s : string) : option Z :=
  match trim_right (trim_left s) with
  | EmptyString => Some 0
  | String "0" (String "x" r) | String "0" (String "X" r) => numeral 16 r
  | String "0" (String "o" r) | String "0" (String "O" r) => numeral 8 r
  | String "0" (String "b" r) | String "0" (String "B" r) => numeral 2 r
  | String "-" r => Z.opp <$> numeral 10 r
  | String "+" r => numeral 10 r
  | t => numeral 10 t
  end.

(** [BigInt(s)] for a string [s]. *)
Definition BigInt (s : string) : completion Z :=
  match StringToBigInt s with
  | Some z => Normal z
  | None => Abrupt (SyntaxError ("Cannot convert " ++ s ++ " to a BigInt"))
  end.

(** ** Values on the wire *)

Definition AccessList : Type := list (string * list string).

(** [EIP1193TransactionData]: every property is an optional hex string. *)
Record EIP1193TransactionData : Type := {
  tx_from : option string;
  tx_to : option string;
  tx_data : option string;
  tx_gas : option string;
  tx_nonce : option string;
  tx_chainId : option string;
  tx_value : option string;
  tx_type : option string;
  tx_gasPrice : option string;
  tx_maxFeePerGas : option string;
  tx_maxPriorityFeePerGas : option string;
  tx_accessList : option AccessList
}.

(** A JavaScript value as it appears in [params] and in results. *)
Unset Elimination Schemes.
Inductive any : Type :=
  | Undefined
  | Str (s : string)
  | TxObj (t : EIP1193TransactionData)
  | Arr (l : list any)
  | Opaque (n : nat).
Set Elimination Schemes.

(** [Number(x)] and [parseInt(s, radix)] are left uninterpreted: a field
    holding a JavaScript number records which conversion produced it. *)
Inductive number : Type :=
  | Number (x : any)
  | parseInt (s : string) (radix : Z).

Inductive TransactionType : Type := legacy | eip2930 | eip1559.

(** The object handed to the signer: viem's transaction request.  A
    property that is [undefined] or not set is [None]. *)
Record TransactionRequest : Type := {
  type_ : TransactionType;
  to : option string;
  data : option string;
  gas : option Z;
  nonce : option number;
  chainId : option number;
  accessList : option AccessList;
  gasPrice : option Z;
  maxFeePerGas : option Z;
  maxPriorityFeePerGas : option Z;
  value : option Z
}.

(** ** Accounts *)

Inductive KeyMaterial : Type :=
  | PrivateKey (pk : string)
  | HDKey (mnemonic : string) (accountIndex : nat).

Record LocalAccount : Type := {
  address : string;
  key : KeyMaterial
}.

Record AccountsOption : Type := {
  privateKeys : option (list string);
  mnemonic : option string;
  numAccounts : option Z
}.

(** [options.impersonate]: the mode, with the allow-list of mode ['list'].
    The impersonator itself is a collaborator (see [call]). *)
Inductive ImpersonateMode : Type :=
  | mode_always
  | mode_unknown
  | mode_list (list_ : list string).

(** The chain-aware clients of the client-mediated revision.  Every
    construction yields a new object; [client_id] is its identity. *)
Record Clients : Type := {
  client_id : nat;
  chain_id : number
}.

(** ** Collaborators and resumptions *)

(** A call that leaves the middleware.  Each returns a promise. *)
Inductive call : Type :=
  | provider_request (method : string) (params : option (list any))
  | impersonateAccount (address_ : option string)
  | signTransaction (account : LocalAccount) (tx : TransactionRequest)
  | signMessage (account : LocalAccount) (message : any)
  | signTypedData (account : LocalAccount) (typedData : any)
  | wallet_sendTransaction (clients : Clients) (tx : TransactionRequest)
      (account : LocalAccount).

(** The body of an [async] function.  [Await c k] makes the call [c] and
    suspends until its promise settles: [k] continues with the fulfilment
    value, a rejection is rethrown (no handler has a [try]).  [Tick k]
    awaits a promise of the middleware's own, which only yields.  The
    remaining three act on the closure variable [clients] of the
    client-mediated revision and on the allocation of client objects; they
    do not suspend. *)
Inductive prog (A : Type) : Type :=
  | Return (a : A)
  | Throw (e : error)
  | Await (c : call) (k : any -> prog A)
  | Tick (k : prog A)
  | ReadClients (k : option Clients -> prog A)
  | WriteClients (c : Clients) (k : prog A)
  | CreateClients (chain : number) (k : Clients -> prog A).
Arguments Return {A} a.
Arguments Throw {A} e.
Arguments Await {A} c k.
Arguments Tick {A} k.
Arguments ReadClients {A} k.
Arguments WriteClients {A} c k.
Arguments CreateClients {A} chain k.

Fixpoint prog_bind {A B : Type} (f : A -> prog B) (p : prog A) : prog B :=
  match p with
  | Return a => f a
  | Throw e => Throw e
  | Await c k => Await c (fun v => prog_bind f (k v))
  | Tick k => Tick (prog_bind f k)
  | ReadClients k => ReadClients (fun c => prog_bind f (k c))
  | WriteClients c k => WriteClients c (prog_bind f k)
  | CreateClients chain k => CreateClients chain (fun c => prog_bind f (k c))
  end.

#[global] Instance prog_ret : MRet prog := fun _ a => Return a.
#[global] Instance prog_mbind : MBind prog := fun _ _ f p => prog_bind f p.

(** A synchronous helper that may throw, called from an [async] body. *)
Definition lift {A : Type} (c : completion A) : prog A :=
  match c with
  | Normal a => Return a
  | Abrupt e => Throw e
  end.

(** [await c] for a call to a collaborator. *)
Definition await (c : call) : prog any := Await c Return.

(** [await p] for a promise returned by an [async] function of the
    middleware itself. *)
Definition await_own {A : Type} (p : prog A) : prog A :=
  a ← p; Tick (Return a).

(** The mutable part of one middleware instance, with the calls it has made
    so far (oldest first). *)
Record store : Type := {
  clients_var : option Clients;
  constructed : nat;
  trace : list call
}.

Definition fresh : store :=
  {| clients_var := None; constructed := 0%nat; trace := [] |}.

Definition record_call (c : call) (σ : store) : store :=
  {| clients_var := clients_var σ; constructed := constructed σ;
     trace := trace σ ++ [c] |}.

Definition set_clients (c : Clients) (σ : store) : store :=
  {| clients_var := Some c; constructed := constructed σ; trace := trace σ |}.

Definition allocate (σ : store) : store :=
  {| clients_var := clients_var σ; constructed := S (constructed σ);
     trace := trace σ |}.

(** How the collaborators settle a call, given the calls made before it. *)
Definition world : Type := list call -> call -> completion any.

(** One request handled on its own, from start to settlement. *)
Fixpoint run {A : Type} (w : world) (p : prog A) (σ : store)
  : completion A * store :=
  match p with
  | Return a => (Normal a, σ)
  | Throw e => (Abrupt e, σ)
  | Await c k =>
      match w (trace σ) c with
      | Normal v => run w (k v) (record_call c σ)
      | Abrupt e => (Abrupt e, record_call c σ)
      end
  | Tick k => run w k σ
  | ReadClients k => run w (k (clients_var σ)) σ
  | WriteClients c k => run w k (set_clients c σ)
  | CreateClients chain k =>
      run w (k {| client_id := constructed σ; chain_id := chain |})
        (allocate σ)
  end.

(** *** Several requests in flight *)

(** Where a handler is parked. *)
Inductive parked : Type :=
  | on_call (c : call) (k : any -> prog any)
  | on_tick (k : prog any).

Inductive stage : Type :=
  | settled (r : completion any)
  | waiting (p : parked).

(** Runs a body up to its next suspension.  A call is made (and recorded)
    when the body reaches it, before the body suspends. *)
Fixpoint advance (p : prog any) (σ : store) : stage * store :=
  match p with
  | Return a => (settled (Normal a), σ)
  | Throw e => (settled (Abrupt e), σ)
  | Await c k => (waiting (on_call c k), record_call c σ)
  | Tick k => (waiting (on_tick k), σ)
  | ReadClients k => advance (k (clients_var σ)) σ
  | WriteClients c k => advance k (set_clients c σ)
  | CreateClients chain k =>
      advance (k {| client_id := constructed σ; chain_id := chain |})
        (allocate σ)
  end.

(** What the event loop does next: a caller invokes a handler, or the
    promise that task [i] is parked on settles. *)
Inductive turn : Type :=
  | invoke (p : prog any)
  | resume (i : nat).

Record loop : Type := {
  tasks : list stage;
  shared : store
}.

Definition turn_step (w : world) (t : turn) (l : loop) : loop :=
  match t with
  | invoke p =>
      let '(s, σ) := advance p (shared l) in
      {| tasks := tasks l ++ [s]; shared := σ |}
  | resume i =>
      match tasks l !! i with
      | Some (waiting (on_call c k)) =>
          match w (trace (shared l)) c with
          | Normal v =>
              let '(s, σ) := advance (k v) (shared l) in
              {| tasks := <[i := s]> (tasks l); shared := σ |}
          | Abrupt e =>
              {| tasks := <[i := settled (Abrupt e)]> (tasks l);
                 shared := shared l |}
          end
      | Some (waiting (on_tick k)) =>
          let '(s, σ) := advance k (shared l) in
          {| tasks := <[i := s]> (tasks l); shared := σ |}
      | _ => l
      end
  end.

Definition event_loop (w : world) (ts : list turn) (σ : store) : loop :=
  fold_left (fun l t => turn_step w t l) ts {| tasks := []; shared := σ |}.

(** ** Language helpers shared by both revisions *)

Definition empty_tx : EIP1193TransactionData :=
  {| tx_from := None; tx_to := None; tx_data := None; tx_gas := None;
     tx_nonce := None; tx_chainId := None; tx_value := None; tx_type := None;
     tx_gasPrice := None; tx_maxFeePerGas := None;
     tx_maxPriorityFeePerGas := None; tx_accessList := None |}.

(** Reading transaction properties off a value: [undefined] has no
    properties (a [TypeError]); a value that is no transaction object has
    none of these, so each of them reads as [undefined]. *)
Definition tx_view (v : any) : completion EIP1193TransactionData :=
  match v with
  | Undefined =>
      Abrupt (TypeError "Cannot read properties of undefined")
  | TxObj t => Normal t
  | _ => Normal empty_tx
  end.

(** [s === x] for a string [s] and an optional string property [x]. *)
Definition strict_eq (s : string) (x : option string) : bool :=
  match x with
  | Some s' => String.eqb s s'
  | None => false
  end.

(** [s === v] for a string [s] and an arbitrary value [v]. *)
Definition strict_eq_any (s : string) (v : any) : bool :=
  match v with
  | Str s' => String.eqb s s'
  | _ => false
  end.

(** [Array.prototype.find] and [Array.prototype.some] with a callback that
    may throw: the callback runs on each element in order until the first
    hit, so it does not run at all on an empty array. *)
Fixpoint Array_find {A : Type} (f : A -> completion bool) (l : list A)
  : completion (option A) :=
  match l with
  | [] => Normal None
  | a :: r =>
      match f a with
      | Normal true => Normal (Some a)
      | Normal false => Array_find f r
      | Abrupt e => Abrupt e
      end
  end.

Fixpoint Array_some {A : Type} (f : A -> completion bool) (l : list A)
  : completion bool :=
  match l with
  | [] => Normal false
  | a :: r =>
      match f a with
      | Normal true => Normal true
      | Normal false => Array_some f r
      | Abrupt e => Abrupt e
      end
  end.

(** [list.includes(x)] for a list of strings. *)
Definition includes (l : list string) (x : option string) : bool :=
  existsb (fun s => strict_eq s x) l.

(** [x ? BigInt(x) : undefined] and [if (x) out.f = BigInt(x)]. *)
Definition BigInt_if_truthy (x : option string) : completion (option Z) :=
  match x with
  | Some s => if truthy x then z ← BigInt s; Normal (Some z) else Normal None
  | None => Normal None
  end.

(** [x ? x : undefined] for pass-through properties set under [if (x)]. *)
Definition if_truthy (x : option string) : option string :=
  if truthy x then x else None.

(** [{...a, ...b}]: the properties of [b] win. *)
Definition spread {V : Type} (a b : gmap string V) : gmap string V := b ∪ a.

(** Spreading [undefined] adds nothing. *)
Definition spreadable {V : Type} (a : option (gmap string V)) : gmap string V :=
  default ∅ a.

(** [s.length], the number of UTF-16 code units of a string, for a string
    held as its UTF-8 bytes: a byte that starts a character of up to three
    bytes counts one, a byte that starts a character of four bytes (one
    outside the basic plane, a surrogate pair) counts two, and a
    continuation byte counts none. *)
Fixpoint utf16_length (s : string) : nat :=
  match s with
  | EmptyString => 0%nat
  | String c r =>
      let n := N_of_ascii c in
      ((if (n <? 128)%N then 1 else if (n <? 192)%N then 0
        else if (n <? 240)%N then 1 else 2)
       + utf16_length r)%nat
  end.

(** [`\x19Ethereum Signed Message:\n${message.length}${message}`] for a
    string [message]. *)
Definition prefixed (message : string) : string :=
  (String (ascii_of_nat 25) "Ethereum Signed Message:"
   ++ String (ascii_of_nat 10) (pretty (utf16_length message))
   ++ message)%string.

(** ** The account registry

    The block that fills [accounts] is the same in both revisions. *)
Section Registry.

(** viem's derivation of an address from key material. *)
Variable addressOf : KeyMaterial -> string.

Definition privateKeyToAccount (pk : string) : LocalAccount :=
  {| address := addressOf (PrivateKey pk); key := PrivateKey pk |}.

Definition mnemonicToAccount (m : string) (accountIndex : nat)
  : LocalAccount :=
  {| address := addressOf (HDKey m accountIndex);
     key := HDKey m accountIndex |}.

(** [numAccounts || 10]: [undefined] and [0] are falsy. *)
Definition num_or_10 (n : option Z) : Z :=
  match n with
  | Some z => if z =? 0 then 10 else z
  | None => 10
  end.

(** The [accounts] array after construction.  The loop
    [for (let i = 0; i < num; i++)] runs [Z.to_nat num] times. *)
Definition registry (accountsOption : option AccountsOption)
  : list LocalAccount :=
  match accountsOption with
  | None => []
  | Some accountsProvided =>
      match privateKeys accountsProvided with
      | Some pks => map privateKeyToAccount pks
      | None =>
          match mnemonic accountsProvided with
          | Some m =>
              if truthy (Some m) then
                let num := num_or_10 (numAccounts accountsProvided) in
                map (mnemonicToAccount m) (seq 0 (Z.to_nat num))
              else []
          | None => []
          end
      end
  end.

End Registry.

(** What the handler table holds: [(params: any[]) => Promise<any>]. *)
Abbreviation handler := (list any -> prog any).

(** What a plain object inherits from [Object.prototype] under a name, as
    it behaves when it is called like a handler, [handler(params)], in
    strict code (so without a receiver).  [constructor] is [Object] and
    returns the array it is given; [toString] answers for [undefined];
    the other functions convert their missing receiver to an object and
    throw a [TypeError]; [__proto__] reads as the prototype itself, which
    is no function.  Other names are not inherited. *)
Definition Object_prototype (name : string) : option handler :=
  if String.eqb name "constructor" then
    Some (fun params => Return (Arr params))
  else if String.eqb name "toString" then
    Some (fun _ => Return (Str "[object Undefined]"))
  else if existsb (String.eqb name)
            [ "valueOf"; "toLocaleString"; "hasOwnProperty"; "isPrototypeOf";
              "propertyIsEnumerable"; "__defineGetter__"; "__defineSetter__";
              "__lookupGetter__"; "__lookupSetter__" ] then
    Some (fun _ => Throw (TypeError "Cannot convert undefined or null to object"))
  else if String.eqb name "__proto__" then
    Some (fun _ => Throw (TypeError "handler is not a function"))
  else None.

(** [table[name]] for a table built as an object literal: its own property
    of that name, and failing that the one it inherits. *)
Definition property (table : gmap string handler) (name : string)
  : option handler :=
  match table !! name with
  | Some h => Some h
  | None => Object_prototype name
  end.

(** ** Revision with raw submission ([src/unnamed/part_000]) *)
Module RawSend.

Record Fixes : Type := { tevmPendingCount : option bool }.

Record ProviderOptions : Type := {
  opt_accounts : option AccountsOption;
  opt_impersonate : option ImpersonateMode;
  opt_fixes : option Fixes
}.

(** Template interpolation [`${message.length}${message}`] for a message
    that is not a string; [personal_sign] is typed for strings. *)
Definition interpolation : Type := any -> string.

Definition parseTxParams (tx : any) : completion TransactionRequest :=
  t ← tx_view tx;
  let p_to := if_truthy (tx_to t) in
  let p_data := if_truthy (tx_data t) in
  p_gas ← BigInt_if_truthy (tx_gas t);
  let p_nonce :=
    if truthy (tx_nonce t)
    then (fun s => parseInt s 16) <$> tx_nonce t else None in
  let p_chainId :=
    if truthy (tx_chainId t)
    then (fun s => parseInt s 16) <$> tx_chainId t else None in
  let p_accessList := tx_accessList t in
  if bool_decide (tx_type t = Some "0x1") then
    p_gasPrice ← BigInt_if_truthy (tx_gasPrice t);
    Normal {| type_ := eip2930; to := p_to; data := p_data; gas := p_gas;
              nonce := p_nonce; chainId := p_chainId;
              accessList := p_accessList; gasPrice := p_gasPrice;
              maxFeePerGas := None; maxPriorityFeePerGas := None;
              value := None |}
  else if bool_decide (tx_type t = Some "0x2") then
    p_maxFeePerGas ← BigInt_if_truthy (tx_maxFeePerGas t);
    p_maxPriorityFeePerGas ← BigInt_if_truthy (tx_maxPriorityFeePerGas t);
    Normal {| type_ := eip1559; to := p_to; data := p_data; gas := p_gas;
              nonce := p_nonce; chainId := p_chainId;
              accessList := p_accessList; gasPrice := None;
              maxFeePerGas := p_maxFeePerGas;
              maxPriorityFeePerGas := p_maxPriorityFeePerGas;
              value := None |}
  else
    p_gasPrice ← BigInt_if_truthy (tx_gasPrice t);
    Normal {| type_ := legacy; to := p_to; data := p_data; gas := p_gas;
              nonce := p_nonce; chainId := p_chainId;
              accessList := p_accessList; gasPrice := p_gasPrice;
              maxFeePerGas := None; maxPriorityFeePerGas := None;
              value := None |}.

(** [signTxParams.value = BigInt(tx.value)] *)
Definition with_value (p : TransactionRequest) (v : Z) : TransactionRequest :=
  {| type_ := type_ p; to := to p; data := data p; gas := gas p;
     nonce := nonce p; chainId := chainId p; accessList := accessList p;
     gasPrice := gasPrice p; maxFeePerGas := maxFeePerGas p;
     maxPriorityFeePerGas := maxPriorityFeePerGas p; value := Some v |}.

Section Middleware.

Variable interpolate : interpolation.
Variable accounts : list LocalAccount.
Variable options : option ProviderOptions.

Definition impersonate : option ImpersonateMode :=
  options ≫= opt_impersonate.

Definition shouldImpersonate (address_ : option string) : bool :=
  match impersonate with
  | Some mode_always => true
  | Some mode_unknown =>
      negb (existsb (fun a => strict_eq (address a) address_) accounts)
  | Some (mode_list l) => includes l address_ || false
  | None => false
  end.

(** [accounts.find((a) => a.address === tx.from)] *)
Definition find_from (tx : any) : completion (option LocalAccount) :=
  Array_find
    (fun a => t ← tx_view tx; Normal (strict_eq (address a) (tx_from t)))
    accounts.

(** [accounts.find((a) => a.address === address)] *)
Definition find_address (address_ : any) : option LocalAccount :=
  find (fun a => strict_eq_any (address a) address_) accounts.

(** [impersonate?.mode !== 'always'] *)
Definition not_always : bool :=
  match impersonate with
  | Some mode_always => false
  | _ => true
  end.

Definition eth_sendTransaction : handler := fun params =>
  let tx := nth 0 params Undefined in
  account ← lift (find_from tx);
  match (if not_always then account else None) with
  | Some account =>
      parsed ← lift (parseTxParams tx);
      signedTx ← await (signTransaction account parsed);
      await (provider_request "eth_sendRawTransaction" (Some [signedTx]))
  | None =>
      match impersonate with
      | Some _ =>
          t ← lift (tx_view tx);
          if shouldImpersonate (tx_from t) then
            _ ← await (impersonateAccount (tx_from t));
            await (provider_request "eth_sendTransaction" (Some [tx]))
          else
            Throw (Error "Account not available, not even as impersonation")
      | None => Throw (Error "Account not available")
      end
  end.

Definition eth_accounts : handler := fun _ =>
  Return (Arr (map (fun a => Str (address a)) accounts)).

Definition eth_requestAccounts : handler := fun _ =>
  Return (Arr (map (fun a => Str (address a)) accounts)).

Definition personal_sign : handler := fun params =>
  let message := nth 0 params Undefined in
  let address_ := nth 1 params Undefined in
  match find_address address_ with
  | None => Throw (Error "Account not available for signing")
  | Some account =>
      match message with
      | Undefined =>
          Throw (TypeError "Cannot read properties of undefined")
      | Str m => await (signMessage account (Str (prefixed m)))
      | _ =>
          await (signMessage account
                   (Str (String (ascii_of_nat 25) "Ethereum Signed Message:"
                         ++ String (ascii_of_nat 10) (interpolate message))))
      end
  end.

Definition eth_sign : handler := fun params =>
  let address_ := nth 0 params Undefined in
  let message := nth 1 params Undefined in
  match find_address address_ with
  | None => Throw (Error "Account not available for signing")
  | Some account => await (signMessage account message)
  end.

Definition eth_signTransaction : handler := fun params =>
  let tx := nth 0 params Undefined in
  account ← lift (find_from tx);
  match account with
  | None => Throw (Error "Account not available for signing")
  | Some account =>
      signTxParams ← lift (parseTxParams tx);
      t ← lift (tx_view tx);
      v ← lift (BigInt_if_truthy (tx_value t));
      await (signTransaction account
               (from_option (with_value signTxParams) signTxParams v))
  end.

Definition eth_signTypedData : handler := fun params =>
  let address_ := nth 0 params Undefined in
  let typedData := nth 1 params Undefined in
  match find_address address_ with
  | None => Throw (Error "Account not available for signing")
  | Some account => await (signTypedData account typedData)
  end.

Definition eth_signTypedData_v4 : handler := fun params =>
  let address_ := nth 0 params Undefined in
  let typedData := nth 1 params Undefined in
  match find_address address_ with
  | None => Throw (Error "Account not available for signing")
  | Some account => await (signTypedData account typedData)
  end.

Definition accountHandlers : gmap string handler :=
  list_to_map
    [ ("eth_sendTransaction", eth_sendTransaction);
      ("eth_accounts", eth_accounts);
      ("eth_requestAccounts", eth_requestAccounts);
      ("personal_sign", personal_sign);
      ("eth_sign", eth_sign);
      ("eth_signTransaction", eth_signTransaction);
      ("eth_signTypedData", eth_signTypedData);
      ("eth_signTypedData_v4", eth_signTypedData_v4) ].

Definition eth_getTransactionCount : handler := fun params =>
  let modifiedParam1 :=
    if strict_eq_any "pending" (nth 1 params Undefined)
    then Str "latest" else nth 1 params Undefined in
  await (provider_request "eth_getTransactionCount"
           (Some [nth 0 params Undefined; modifiedParam1])).

(** [options?.fixes?.tevmPendingCount ? {...} : undefined] *)
Definition tevmPendingCountFix : option (gmap string handler) :=
  match (options ≫= opt_fixes) ≫= tevmPendingCount with
  | Some true => Some {[ "eth_getTransactionCount" := eth_getTransactionCount ]}
  | _ => None
  end.

Definition handlers : gmap string handler :=
  spread (spreadable tevmPendingCountFix) accountHandlers.

(** [request({method, params})]; [args.params] may be missing. *)
Definition request (method : string) (params : option (list any))
  : prog any :=
  match property handlers method with
  | None => await (provider_request method params)
  | Some handler_ => handler_ (default [] params)
  end.

End Middleware.

Definition extendProviderWithAccounts (addressOf : KeyMaterial -> string)
    (interpolate : interpolation) (options : option ProviderOptions)
  : string -> option (list any) -> prog any :=
  request interpolate (registry addressOf (options ≫= opt_accounts)) options.

End RawSend.

(** ** Revision with a wallet client ([src/src/index.ts]) *)
Module ClientMediated.

Record ProviderOptions : Type := {
  opt_accounts : option AccountsOption;
  opt_impersonate : option ImpersonateMode;
  doNotFillMissingFields : option bool;
  opt_handlers : option (gmap string handler)
}.

Definition interpolation : Type := any -> string.

(** [if (c) errors.push(name)] *)
Definition push_if (c : bool) (name : string) (errors : list string)
  : list string :=
  if c then errors ++ [name] else errors.

Definition validateTransaction (tx : any) : completion unit :=
  t ← tx_view tx;
  let errors := [] in
  let errors := push_if (negb (truthy (tx_from t))) "from" errors in
  let errors := push_if (negb (truthy (tx_gas t))) "gas" errors in
  let errors := push_if (negb (truthy (tx_nonce t))) "nonce" errors in
  let hasGasPrice := bool_decide (tx_gasPrice t ≠ None) in
  let hasMaxFee := bool_decide (tx_maxFeePerGas t ≠ None) in
  let hasMaxPriority := bool_decide (tx_maxPriorityFeePerGas t ≠ None) in
  let errors :=
    if bool_decide (tx_type t = Some "0x2") then
      push_if (negb hasMaxPriority) "maxPriorityFeePerGas"
        (push_if (negb hasMaxFee) "maxFeePerGas" errors)
    else push_if (negb hasGasPrice) "gasPrice" errors in
  if (0 <? length errors)%nat then
    Abrupt (Error ("Missing mandatory fields: " ++ String.concat ", " errors))
  else Normal ().

(** [x ? Number(x) : undefined] *)
Definition Number_if_truthy (x : option string) : option number :=
  if truthy x then (fun s => Number (Str s)) <$> x else None.

Definition toViemTransaction (tx : any) : completion TransactionRequest :=
  t ← tx_view tx;
  if bool_decide (tx_type t = Some "0x1") then
    let p_nonce := Number_if_truthy (tx_nonce t) in
    p_gas ← BigInt_if_truthy (tx_gas t);
    p_gasPrice ← BigInt_if_truthy (tx_gasPrice t);
    p_value ← BigInt_if_truthy (tx_value t);
    Normal {| type_ := eip2930; to := tx_to t; nonce := p_nonce;
              gas := p_gas; gasPrice := p_gasPrice; data := tx_data t;
              accessList := tx_accessList t; value := p_value;
              chainId := None; maxFeePerGas := None;
              maxPriorityFeePerGas := None |}
  else if bool_decide (tx_type t = Some "0x2") then
    let p_nonce := Number_if_truthy (tx_nonce t) in
    p_gas ← BigInt_if_truthy (tx_gas t);
    p_maxFeePerGas ← BigInt_if_truthy (tx_maxFeePerGas t);
    p_maxPriorityFeePerGas ← BigInt_if_truthy (tx_maxPriorityFeePerGas t);
    p_value ← BigInt_if_truthy (tx_value t);
    Normal {| type_ := eip1559; to := tx_to t; nonce := p_nonce;
              gas := p_gas; maxFeePerGas := p_maxFeePerGas;
              maxPriorityFeePerGas := p_maxPriorityFeePerGas;
              data := tx_data t; accessList := tx_accessList t;
              value := p_value; chainId := None; gasPrice := None |}
  else if negb (truthy (tx_type t)) || bool_decide (tx_type t = Some "0x0") then
    let p_nonce := Number_if_truthy (tx_nonce t) in
    p_gas ← BigInt_if_truthy (tx_gas t);
    p_gasPrice ← BigInt_if_truthy (tx_gasPrice t);
    p_value ← BigInt_if_truthy (tx_value t);
    Normal {| type_ := eip2930; to := tx_to t; nonce := p_nonce;
              gas := p_gas; gasPrice := p_gasPrice; data := tx_data t;
              value := p_value; accessList := None; chainId := None;
              maxFeePerGas := None; maxPriorityFeePerGas := None |}
  else
    Abrupt (Error ("tx type " ++ default "" (tx_type t) ++ " not implemented")).

(** The cache in front of the chain lookup.  [createWalletClient] and
    [createPublicClient] are counted as one construction. *)
Definition getClients : prog Clients :=
  ReadClients (fun clients =>
    match clients with
    | Some c => Return c
    | None =>
        chainId ← await (provider_request "eth_chainId" None);
        CreateClients (Number chainId) (fun c => WriteClients c (Return c))
    end).

Section Middleware.

Variable interpolate : interpolation.
Variable accounts : list LocalAccount.
Variable options : option ProviderOptions.

Definition impersonate : option ImpersonateMode :=
  options ≫= opt_impersonate.

(** [a.address.toLowerCase() === x.toLowerCase()]; [x] may be
    [undefined]. *)
Definition same_address (x : option string) (a : LocalAccount)
  : completion bool :=
  match x with
  | Some s => Normal (String.eqb (toLowerCase (address a)) (toLowerCase s))
  | None => Abrupt (TypeError "Cannot read properties of undefined")
  end.

Definition shouldImpersonate (address_ : option string) : completion bool :=
  match impersonate with
  | Some mode_always => Normal true
  | Some mode_unknown =>
      b ← Array_some (same_address address_) accounts; Normal (negb b)
  | Some (mode_list l) => Normal (includes l address_ || false)
  | None => Normal false
  end.

(** [accounts.find((a) => a.address.toLowerCase() === tx.from.toLowerCase())] *)
Definition find_from (tx : any) : completion (option LocalAccount) :=
  Array_find (fun a => t ← tx_view tx; same_address (tx_from t) a) accounts.

(** [accounts.find((a) => a.address === address)] *)
Definition find_address (address_ : any) : option LocalAccount :=
  find (fun a => strict_eq_any (address a) address_) accounts.

(** [impersonate?.mode !== 'always'] *)
Definition not_always : bool :=
  match impersonate with
  | Some mode_always => false
  | _ => true
  end.

(** [options?.doNotFillMissingFields] as a condition *)
Definition strict : bool :=
  match options ≫= doNotFillMissingFields with
  | Some true => true
  | _ => false
  end.

Definition eth_sendTransaction : handler := fun params =>
  let tx := nth 0 params Undefined in
  _ ← (if strict then lift (validateTransaction tx) else Return ());
  viemTx ← lift (toViemTransaction tx);
  account ← lift (find_from tx);
  clients ← await_own getClients;
  match (if not_always then account else None) with
  | Some account => await (wallet_sendTransaction clients viemTx account)
  | None =>
      match impersonate with
      | Some _ =>
          t ← lift (tx_view tx);
          should ← lift (shouldImpersonate (tx_from t));
          if (should : bool) then
            _ ← await (impersonateAccount (tx_from t));
            await (provider_request "eth_sendTransaction" (Some [tx]))
          else
            Throw (Error "Account not available, not even as impersonation")
      | None => Throw (Error "Account not available")
      end
  end.

Definition eth_accounts : handler := fun _ =>
  Return (Arr (map (fun a => Str (address a)) accounts)).

Definition eth_requestAccounts : handler := fun _ =>
  Return (Arr (map (fun a => Str (address a)) accounts)).

Definition personal_sign : handler := fun params =>
  let message := nth 0 params Undefined in
  let address_ := nth 1 params Undefined in
  match find_address address_ with
  | None => Throw (Error "Account not available for signing")
  | Some account =>
      match message with
      | Undefined =>
          Throw (TypeError "Cannot read properties of undefined")
      | Str m => await (signMessage account (Str (prefixed m)))
      | _ =>
          await (signMessage account
                   (Str (String (ascii_of_nat 25) "Ethereum Signed Message:"
                         ++ String (ascii_of_nat 10) (interpolate message))))
      end
  end.

Definition eth_sign : handler := fun params =>
  let address_ := nth 0 params Undefined in
  let message := nth 1 params Undefined in
  match find_address address_ with
  | None => Throw (Error "Account not available for signing")
  | Some account => await (signMessage account message)
  end.

Definition eth_signTransaction : handler := fun _ =>
  Throw (Error "eth_signTransaction not implemented").

Definition eth_signTypedData : handler := fun params =>
  let address_ := nth 0 params Undefined in
  let typedData := nth 1 params Undefined in
  match find_address address_ with
  | None => Throw (Error "Account not available for signing")
  | Some account => await (signTypedData account typedData)
  end.

Definition eth_signTypedData_v4 : handler := fun params =>
  let address_ := nth 0 params Undefined in
  let typedData := nth 1 params Undefined in
  match find_address address_ with
  | None => Throw (Error "Account not available for signing")
  | Some account => await (signTypedData account typedData)
  end.

Definition accountHandlers : gmap string handler :=
  list_to_map
    [ ("eth_sendTransaction", eth_sendTransaction);
      ("eth_accounts", eth_accounts);
      ("eth_requestAccounts", eth_requestAccounts);
      ("personal_sign", personal_sign);
      ("eth_sign", eth_sign);
      ("eth_signTransaction", eth_signTransaction);
      ("eth_signTypedData", eth_signTypedData);
      ("eth_signTypedData_v4", eth_signTypedData_v4) ].

Definition handlers : gmap string handler :=
  spread accountHandlers (spreadable (options ≫= opt_handlers)).

(** [request({method, params})]; [args.params] may be missing. *)
Definition request (method : string) (params : option (list any))
  : prog any :=
  match property handlers method with
  | None => await (provider_request method params)
  | Some handler_ => handler_ (default [] params)
  end.

End Middleware.

Definition extendProviderWithAccounts (addressOf : KeyMaterial -> string)
    (interpolate : interpolation) (options : option ProviderOptions)
  : string -> option (list any) -> prog any :=
  request interpolate (registry addressOf (options ≫= opt_accounts)) options.

End ClientMediated.

(** ** Strict mode, in the words of the specification

    The format of a request follows its [type] tag; each format has its own
    fee fields, and [from], [gas] and [nonce] are mandatory in all of
    them. *)

Inductive TransactionFormat : Type := Legacy | AccessListFormat | FeeMarket.

Definition format_of (t : EIP1193TransactionData) : option TransactionFormat :=
  match tx_type t with
  | None => Some Legacy
  | Some s =>
      if String.eqb s "0x0" then Some Legacy
      else if String.eqb s "0x1" then Some AccessListFormat
      else if String.eqb s "0x2" then Some FeeMarket
      else None
  end.

Inductive mandatory : Type :=
  | m_from | m_gas | m_nonce | m_gasPrice | m_maxFeePerGas
  | m_maxPriorityFeePerGas.

Definition field_name (f : mandatory) : string :=
  match f with
  | m_from => "from"
  | m_gas => "gas"
  | m_nonce => "nonce"
  | m_gasPrice => "gasPrice"
  | m_maxFeePerGas => "maxFeePerGas"
  | m_maxPriorityFeePerGas => "maxPriorityFeePerGas"
  end.

Definition field_of (f : mandatory) (t : EIP1193TransactionData)
  : option string :=
  match f with
  | m_from => tx_from t
  | m_gas => tx_gas t
  | m_nonce => tx_nonce t
  | m_gasPrice => tx_gasPrice t
  | m_maxFeePerGas => tx_maxFeePerGas t
  | m_maxPriorityFeePerGas => tx_maxPriorityFeePerGas t
  end.

Definition fee_fields (fmt : TransactionFormat) : list mandatory :=
  match fmt with
  | Legacy | AccessListFormat => [m_gasPrice]
  | FeeMarket => [m_maxFeePerGas; m_maxPriorityFeePerGas]
  end.

Definition required_fields (t : EIP1193TransactionData) : list mandatory :=
  [m_from; m_gas; m_nonce] ++ from_option fee_fields [] (format_of t).

(** ** Measures on the calls made, kinds of failure *)

Definition is_impersonation (c : call) : bool :=
  match c with
  | impersonateAccount _ => true
  | _ => false
  end.

Definition is_chain_lookup (c : call) : bool :=
  match c with
  | provider_request m _ => String.eqb m "eth_chainId"
  | _ => false
  end.

(** How often the impersonator was invoked. *)
Definition impersonations (l : list call) : nat :=
  length (filter (fun c => is_impersonation c = true) l).

(** How often the provider was asked for [eth_chainId]. *)
Definition chain_lookups (l : list call) : nat :=
  length (filter (fun c => is_chain_lookup c = true) l).

(** The two messages of the failure the specification calls
    [AccountUnavailable]. *)
Definition AccountUnavailable (e : error) : Prop :=
  e = Error "Account not available"
  ∨ e = Error "Account not available, not even as impersonation".

(** The account whose signer a call goes to. *)
Definition signer_of (c : call) : option LocalAccount :=
  match c with
  | signTransaction a _ | signMessage a _ | signTypedData a _ => Some a
  | _ => None
  end.

(** The method names of [accountHandlers], the same in both revisions. *)
Definition builtin_methods : list string :=
  [ "eth_sendTransaction"; "eth_accounts"; "eth_requestAccounts";
    "personal_sign"; "eth_sign"; "eth_signTransaction"; "eth_signTypedData";
    "eth_signTypedData_v4" ].

(** ** Test doubles *)
Module Fixture.

Definition key0 : string :=
  "0xac0974bec39a17e36ba4a6b4d238ff944bacb478cbed5efcae784d7bf4f2ff80".

(** The checksummed address viem derives from [key0]. *)
Definition addr0 : string := "0xf39Fd6e51aad88F6F4ce6aB8827279cffFb92266".

Definition phrase : string :=
  "test test test test test test test test test test test junk".

Definition addressOf (k : KeyMaterial) : string :=
  match k with
  | PrivateKey pk =>
      if String.eqb pk key0 then addr0
      else "0x0000000000000000000000000000000000000001"
  | HDKey _ i => "0x70997970C51812dc3A010C7d01b50e0d17dc79C" ++ pretty i
  end.

Definition account0 : LocalAccount := privateKeyToAccount addressOf key0.

Definition interpolate : any -> string := fun _ => "".

(** A node on chain 31337 whose collaborators all fulfil. *)
Definition node : world := fun _ c =>
  match c with
  | provider_request "eth_chainId" _ => Normal (Str "0x7a69")
  | provider_request _ _ => Normal (Str "0xaa")
  | impersonateAccount _ => Normal Undefined
  | signTransaction _ _ => Normal (Str "0x02f8")
  | signMessage _ _ => Normal (Str "0x1b")
  | signTypedData _ _ => Normal (Str "0x1c")
  | wallet_sendTransaction _ _ _ => Normal (Str "0xbb")
  end.

Definition stranger : string := "0x000000000000000000000000000000000000dEaD".

(** A transfer of 16 wei with no [type]. *)
Definition transfer (sender : string) : EIP1193TransactionData :=
  {| tx_from := Some sender; tx_to := Some stranger; tx_data := None;
     tx_gas := Some "0x5208"; tx_nonce := Some "0x1"; tx_chainId := None;
     tx_value := Some "0x10"; tx_type := None; tx_gasPrice := Some "0x3b9aca00";
     tx_maxFeePerGas := None; tx_maxPriorityFeePerGas := None;
     tx_accessList := None |}.

Definition with_type (ty : string) (t : EIP1193TransactionData)
  : EIP1193TransactionData :=
  {| tx_from := tx_from t; tx_to := tx_to t; tx_data := tx_data t;
     tx_gas := tx_gas t; tx_nonce := tx_nonce t; tx_chainId := tx_chainId t;
     tx_value := tx_value t; tx_type := Some ty; tx_gasPrice := tx_gasPrice t;
     tx_maxFeePerGas := tx_maxFeePerGas t;
     tx_maxPriorityFeePerGas := tx_maxPriorityFeePerGas t;
     tx_accessList := tx_accessList t |}.

Definition raw_options (imp : option ImpersonateMode)
  : option RawSend.ProviderOptions :=
  Some {| RawSend.opt_accounts :=
            Some {| privateKeys := Some [key0]; mnemonic := None;
                    numAccounts := None |};
          RawSend.opt_impersonate := imp;
          RawSend.opt_fixes := Some {| RawSend.tevmPendingCount := Some true |} |}.

(** A legacy request with neither [nonce] nor [gasPrice]. *)
Definition legacy_without_nonce_and_gasPrice : EIP1193TransactionData :=
  {| tx_from := Some addr0; tx_to := Some stranger;
     tx_data := None; tx_gas := Some "0x5208"; tx_nonce := None;
     tx_chainId := None; tx_value := None; tx_type := None;
     tx_gasPrice := None; tx_maxFeePerGas := None;
     tx_maxPriorityFeePerGas := None; tx_accessList := None |}.

(** Two requests are made one after the other.  Then the chain lookup of
    the first settles and the first goes on to its send, likewise the
    second, and at last the two sends settle. *)
Definition two_first_sends (p1 p2 : prog any) : list turn :=
  [invoke p1; invoke p2; resume 0; resume 0; resume 1; resume 1;
   resume 0; resume 1].

Definition client_options (imp : option ImpersonateMode) (strict_ : bool)
  : option ClientMediated.ProviderOptions :=
  Some {| ClientMediated.opt_accounts :=
            Some {| privateKeys := Some [key0]; mnemonic := None;
                    numAccounts := None |};
          ClientMediated.opt_impersonate := imp;
          ClientMediated.doNotFillMissingFields := Some strict_;
          ClientMediated.opt_handlers := None |}.

Definition key1 : string :=
  "0x59c6995e998f97a5a0044966f0945389dc9e86dae88c7a8412f4603b6b78690d".

(** A node whose impersonator refuses. *)
Definition refusing : world := fun h c =>
  match c with
  | impersonateAccount _ => Abrupt (Foreign "impersonation refused")
  | _ => node h c
  end.

(** A node next to accounts whose signers refuse. *)
Definition unsigned : world := fun h c =>
  match c with
  | signTransaction _ _ => Abrupt (Foreign "signing refused")
  | _ => node h c
  end.

(** A provider that rejects its first request and answers from then on. *)
Definition flaky : world := fun h c =>
  match h, c with
  | [], provider_request _ _ => Abrupt (Foreign "connection refused")
  | _, _ => node h c
  end.

End Fixture.

(** ** Properties *)

(** Case analysis on the next synchronous step that may throw. *)
Ltac next_completion :=
  match goal with
  | H : context [match ?c with Normal _ => _ | Abrupt _ => _ end] |- _ =>
      let E := fresh "E" in destruct c eqn:E; simpl in H; try discriminate H
  | H : context [if ?b then _ else _] |- _ =>
      let E := fresh "E" in destruct b eqn:E; simpl in H; try discriminate H
  end.

(** *** Running sequenced bodies *)

Lemma run_bind {A B : Type} (w : world) (p : prog A) (f : A -> prog B)
    (σ : store) :
  run w (p ≫= f) σ =
  match run w p σ with
  | (Normal a, σ') => run w (f a) σ'
  | (Abrupt e, σ') => (Abrupt e, σ')
  end.
Proof.
  revert σ.
  induction p as [a|e|c k IH|k IH|k IH|c k IH|chain k IH]; intros σ; simpl; auto.
  destruct (w (trace σ) c); auto.
Qed.

Lemma run_await_own {A : Type} (w : world) (p : prog A) (σ : store) :
  run w (await_own p) σ = run w p σ.
Proof.
  unfold await_own. rewrite run_bind. by destruct (run w p σ) as [[a|e] σ'].
Qed.

(** *** The registry *)

Lemma registry_mnemonic addressOf (m : string) (n : option Z) :
  m ≠ "" ->
  registry addressOf
    (Some {| privateKeys := None; mnemonic := Some m; numAccounts := n |})
  = map (mnemonicToAccount addressOf m) (seq 0 (Z.to_nat (num_or_10 n))).
Proof.
  intros Hm. unfold registry; simpl.
  destruct (String.eqb_spec m ""); [contradiction | reflexivity].
Qed.

(** C10: with a mnemonic and [numAccounts: 0] the registry holds the ten
    accounts of indices 0 to 9, the same ten as with [numAccounts] left out,
    and [eth_accounts] answers with their ten addresses, in both
    revisions. *)
Theorem numAccounts_zero_derives_ten addressOf interp (w : world) (σ : store)
    (m : string) :
  m ≠ "" ->
  let zero :=
    {| privateKeys := None; mnemonic := Some m; numAccounts := Some 0%Z |} in
  let omitted :=
    {| privateKeys := None; mnemonic := Some m; numAccounts := None |} in
  let ten := map (mnemonicToAccount addressOf m) (seq 0 10) in
  registry addressOf (Some zero) = ten
  ∧ registry addressOf (Some omitted) = ten
  ∧ length ten = 10%nat
  ∧ (∀ imp fixes params,
       run w (RawSend.extendProviderWithAccounts addressOf interp
                (Some {| RawSend.opt_accounts := Some zero;
                         RawSend.opt_impersonate := imp;
                         RawSend.opt_fixes := fixes |})
                "eth_accounts" params) σ
       = (Normal (Arr (map (fun a => Str (address a)) ten)), σ))
  ∧ (∀ imp strict_ overrides params,
       spreadable overrides !! "eth_accounts" = None ->
       run w (ClientMediated.extendProviderWithAccounts addressOf interp
                (Some {| ClientMediated.opt_accounts := Some zero;
                         ClientMediated.opt_impersonate := imp;
                         ClientMediated.doNotFillMissingFields := strict_;
                         ClientMediated.opt_handlers := overrides |})
                "eth_accounts" params) σ
       = (Normal (Arr (map (fun a => Str (address a)) ten)), σ)).
Proof.
  intros Hm zero omitted ten.
  assert (Hzero : registry addressOf (Some zero) = ten)
    by (unfold zero; by rewrite registry_mnemonic).
  assert (Homitted : registry addressOf (Some omitted) = ten)
    by (unfold omitted; by rewrite registry_mnemonic).
  refine (conj Hzero (conj Homitted (conj _ (conj _ _)))).
  - unfold ten. by rewrite length_map, length_seq.
  - intros imp fixes params.
    unfold RawSend.extendProviderWithAccounts.
    change (registry addressOf _) with (registry addressOf (Some zero)).
    rewrite Hzero. unfold RawSend.request, property, RawSend.handlers, spread.
    by erewrite lookup_union_Some_l by reflexivity.
  - intros imp strict_ overrides params Hfree.
    unfold ClientMediated.extendProviderWithAccounts.
    change (registry addressOf _) with (registry addressOf (Some zero)).
    rewrite Hzero. unfold ClientMediated.request, property,
      ClientMediated.handlers, spread.
    by rewrite lookup_union_r by exact Hfree.
Qed.

Lemma numAccounts_zero_derives_ten_witness :
  Fixture.phrase ≠ ""
  ∧ length (registry Fixture.addressOf
              (Some {| privateKeys := None; mnemonic := Some Fixture.phrase;
                       numAccounts := Some 0%Z |})) = 10%nat.
Proof.
  split; [discriminate |].
  destruct (numAccounts_zero_derives_ten Fixture.addressOf Fixture.interpolate
              Fixture.node fresh Fixture.phrase ltac:(discriminate))
    as (Hzero & _ & Hlen & _).
  rewrite Hzero. exact Hlen.
Defined.

(** *** The handler table *)

(** C9: built-in account handlers are never shadowed by the pending-nonce
    fix (raw-submission revision), and a caller-supplied handler replaces
    the built-in one of the same name (wallet-client revision); in each
    case [request] runs the handler of the upper layer. *)
Theorem layered_resolution_order :
  (∀ interp accounts options (m : string) (h : handler) params,
     RawSend.accountHandlers interp accounts options !! m = Some h ->
     RawSend.handlers interp accounts options !! m = Some h
     ∧ RawSend.request interp accounts options m params
       = h (default [] params))
  ∧ (∀ interp accounts options overrides (m : string) (h : handler) params,
       options ≫= ClientMediated.opt_handlers = Some overrides ->
       overrides !! m = Some h ->
       ClientMediated.handlers interp accounts options !! m = Some h
       ∧ ClientMediated.request interp accounts options m params
         = h (default [] params)).
Proof.
  split.
  - intros interp accounts options m h params Hbuiltin.
    assert (Hmerged : RawSend.handlers interp accounts options !! m = Some h).
    { unfold RawSend.handlers, spread. by apply lookup_union_Some_l. }
    split; [exact Hmerged |].
    unfold RawSend.request, property. by rewrite Hmerged.
  - intros interp accounts options overrides m h params Hopt Hoverride.
    assert (Hmerged :
      ClientMediated.handlers interp accounts options !! m = Some h).
    { unfold ClientMediated.handlers, spread. rewrite Hopt. simpl.
      by apply lookup_union_Some_l. }
    split; [exact Hmerged |].
    unfold ClientMediated.request, property. by rewrite Hmerged.
Qed.

Lemma layered_resolution_order_witness :
  RawSend.request Fixture.interpolate [Fixture.account0]
    (Fixture.raw_options None) "eth_accounts" None
  = RawSend.eth_accounts [Fixture.account0] []
  ∧ ClientMediated.request Fixture.interpolate [Fixture.account0]
      (Some {| ClientMediated.opt_accounts := None;
               ClientMediated.opt_impersonate := None;
               ClientMediated.doNotFillMissingFields := None;
               ClientMediated.opt_handlers :=
                 Some {[ "eth_accounts" := fun _ => Return (Arr []) ]} |})
      "eth_accounts" None
    = Return (Arr []).
Proof.
  split.
  - apply (proj1 layered_resolution_order). reflexivity.
  - apply (proj2 layered_resolution_order Fixture.interpolate
             [Fixture.account0] _
             {[ "eth_accounts" := fun _ => Return (Arr []) ]}
             "eth_accounts" (fun _ => Return (Arr [])) None);
      reflexivity.
Defined.

(** *** Strict mode *)

Lemma elem_of_push_if (c : bool) (n : string) (l : list string) (x : string) :
  x ∈ ClientMediated.push_if c n l ↔ x ∈ l ∨ (c = true ∧ x = n).
Proof.
  unfold ClientMediated.push_if. destruct c.
  - rewrite elem_of_app, list_elem_of_singleton. intuition congruence.
  - intuition congruence.
Qed.

Lemma format_fee_market (t : EIP1193TransactionData) :
  format_of t = Some FeeMarket ↔ tx_type t = Some "0x2".
Proof.
  unfold format_of. destruct (tx_type t) as [s|]; [|done].
  destruct (String.eqb_spec s "0x0") as [->|]; [done|].
  destruct (String.eqb_spec s "0x1") as [->|]; [done|].
  destruct (String.eqb_spec s "0x2") as [->|]; [done|].
  split; [done|]. intros [= ->]. done.
Qed.

Lemma validateTransaction_reports (v : any) (t : EIP1193TransactionData)
    (f : mandatory) :
  tx_view v = Normal t ->
  f ∈ required_fields t -> field_of f t = None ->
  ∃ errors : list string,
    ClientMediated.validateTransaction v
    = Abrupt (Error ("Missing mandatory fields: " ++ String.concat ", " errors))
    ∧ ∀ g, g ∈ required_fields t -> field_of g t = None ->
           field_name g ∈ errors.
Proof.
  intros Hview Hf Hnone.
  unfold ClientMediated.validateTransaction. rewrite Hview. simpl.
  match goal with |- context [String.concat ", " ?E] => set (errors := E) end.
  assert (Hall : ∀ g, g ∈ required_fields t -> field_of g t = None ->
                      field_name g ∈ errors).
  { intros g Hg Hg0. unfold errors, required_fields in *.
    rewrite elem_of_app in Hg.
    destruct (bool_decide (tx_type t = Some "0x2")) eqn:Hty;
      [apply bool_decide_eq_true in Hty | apply bool_decide_eq_false in Hty].
    - apply format_fee_market in Hty. rewrite Hty in Hg.
      destruct g; simpl in Hg0; rewrite ?Hg0; rewrite !elem_of_push_if;
        simpl; try tauto.
      exfalso. destruct Hg as [Hg|Hg]; set_solver.
    - destruct g; simpl in Hg0; rewrite ?Hg0; rewrite !elem_of_push_if;
        simpl; try tauto.
      all: exfalso; rewrite <- format_fee_market in Hty;
        destruct (format_of t) as [[]|]; simpl in Hg; set_solver. }
  exists errors. split; [|exact Hall].
  specialize (Hall f Hf Hnone).
  destruct errors as [|e errors']; [by apply elem_of_nil in Hall | reflexivity].
Qed.

(** C5: with [doNotFillMissingFields] set, an [eth_sendTransaction] whose
    transaction lacks a mandatory field of its format is rejected, before
    any call is made, with the message ["Missing mandatory fields: "]
    followed by a comma-separated list that holds the name of every
    mandatory field the transaction lacks. *)
Theorem strict_mode_names_every_missing_field (w : world) accounts options
    (params : list any) (t : EIP1193TransactionData) (σ : store)
    (f : mandatory) :
  options ≫= ClientMediated.doNotFillMissingFields = Some true ->
  tx_view (nth 0 params Undefined) = Normal t ->
  f ∈ required_fields t -> field_of f t = None ->
  ∃ errors : list string,
    run w (ClientMediated.eth_sendTransaction accounts options params) σ
    = (Abrupt (Error ("Missing mandatory fields: "
                      ++ String.concat ", " errors)), σ)
    ∧ ∀ g, g ∈ required_fields t -> field_of g t = None ->
           field_name g ∈ errors.
Proof.
  intros Hstrict Hview Hf Hnone.
  destruct (validateTransaction_reports _ t f Hview Hf Hnone)
    as (errors & Hthrow & Hall).
  exists errors. split; [|exact Hall].
  unfold ClientMediated.eth_sendTransaction, ClientMediated.strict.
  rewrite Hstrict, Hthrow. reflexivity.
Qed.

Lemma strict_mode_names_every_missing_field_witness :
  ∃ errors : list string,
    run Fixture.node
      (ClientMediated.eth_sendTransaction [Fixture.account0]
         (Fixture.client_options None true)
         [TxObj Fixture.legacy_without_nonce_and_gasPrice]) fresh
    = (Abrupt (Error ("Missing mandatory fields: "
                      ++ String.concat ", " errors)), fresh)
    ∧ "nonce" ∈ errors ∧ "gasPrice" ∈ errors.
Proof.
  destruct (strict_mode_names_every_missing_field Fixture.node
              [Fixture.account0] (Fixture.client_options None true)
              [TxObj Fixture.legacy_without_nonce_and_gasPrice]
              Fixture.legacy_without_nonce_and_gasPrice fresh m_nonce
              eq_refl eq_refl ltac:(vm_compute; set_solver) eq_refl)
    as (errors & Hrun & Hall).
  exists errors. split; [exact Hrun |]. split.
  - apply (Hall m_nonce); [vm_compute; set_solver | reflexivity].
  - apply (Hall m_gasPrice); [vm_compute; set_solver | reflexivity].
Defined.

Example strict_mode_message :
  run Fixture.node
    (ClientMediated.eth_sendTransaction [Fixture.account0]
       (Fixture.client_options None true)
       [TxObj Fixture.legacy_without_nonce_and_gasPrice]) fresh
  = (Abrupt (Error "Missing mandatory fields: nonce, gasPrice"), fresh).
Proof. reflexivity. Qed.

(** *** The normalizers *)

Lemma parseTxParams_value (v : any) (r : TransactionRequest) :
  RawSend.parseTxParams v = Normal r -> value r = None.
Proof.
  unfold RawSend.parseTxParams, mbind, completion_bind. intros H.
  repeat next_completion; by inversion H.
Qed.

Lemma parseTxParams_catch_all (t : EIP1193TransactionData) (s : string)
    (r : TransactionRequest) :
  tx_type t = Some s -> s ≠ "0x1" -> s ≠ "0x2" ->
  RawSend.parseTxParams (TxObj t) = Normal r -> type_ r = legacy.
Proof.
  intros Hty H1 H2.
  unfold RawSend.parseTxParams, mbind, completion_bind. simpl. rewrite Hty.
  rewrite !bool_decide_eq_false_2 by congruence. intros H.
  repeat next_completion; by inversion H.
Qed.

Lemma toViemTransaction_value (v : any) (t : EIP1193TransactionData)
    (r : TransactionRequest) :
  tx_view v = Normal t ->
  ClientMediated.toViemTransaction v = Normal r ->
  BigInt_if_truthy (tx_value t) = Normal (value r).
Proof.
  unfold ClientMediated.toViemTransaction, mbind, completion_bind.
  intros -> H.
  repeat next_completion; by inversion H.
Qed.

Lemma toViemTransaction_unsupported (t : EIP1193TransactionData) (s : string) :
  tx_type t = Some s ->
  s ≠ "" -> s ≠ "0x0" -> s ≠ "0x1" -> s ≠ "0x2" ->
  ClientMediated.toViemTransaction (TxObj t)
  = Abrupt (Error ("tx type " ++ s ++ " not implemented")).
Proof.
  intros Hty H H0 H1 H2.
  unfold ClientMediated.toViemTransaction. simpl. rewrite Hty.
  rewrite !bool_decide_eq_false_2 by congruence.
  simpl. destruct (String.eqb_spec s ""); [contradiction | reflexivity].
Qed.

Example BigInt_hex : BigInt "0x10" = Normal 16%Z.
Proof. reflexivity. Qed.

(** C4: in the raw-submission revision a request of type ["0x9"] is
    normalized as a legacy transaction, and [eth_sendTransaction] has it
    signed and submitted; the wallet-client revision rejects the same
    request with ["tx type 0x9 not implemented"]. *)
Theorem raw_send_takes_unsupported_type_for_legacy :
  let request9 := Fixture.with_type "0x9" (Fixture.transfer Fixture.addr0) in
  let as_legacy :=
    {| type_ := legacy; to := Some Fixture.stranger; data := None;
       gas := Some 21000%Z; nonce := Some (parseInt "0x1" 16);
       chainId := None; accessList := None; gasPrice := Some 1000000000%Z;
       maxFeePerGas := None; maxPriorityFeePerGas := None; value := None |} in
  RawSend.parseTxParams (TxObj request9) = Normal as_legacy
  ∧ run Fixture.node
      (RawSend.eth_sendTransaction [Fixture.account0]
         (Fixture.raw_options None) [TxObj request9]) fresh
    = (Normal (Str "0xaa"),
       {| clients_var := None; constructed := 0;
          trace := [signTransaction Fixture.account0 as_legacy;
                    provider_request "eth_sendRawTransaction"
                      (Some [Str "0x02f8"])] |})
  ∧ ClientMediated.toViemTransaction (TxObj request9)
    = Abrupt (Error "tx type 0x9 not implemented").
Proof. repeat split. Qed.

(** *** Address comparison *)

(** C6: the registry holds the checksummed address; asked with the same
    address in lower case, the lookup of [eth_sendTransaction] finds the
    account in the wallet-client revision (not in the raw-submission
    revision), but [personal_sign], [eth_sign], [eth_signTypedData] and
    [eth_signTypedData_v4] answer that no account is available, and mode
    ['list'] does not recognise the lower-case form of a listed address. *)
Theorem signing_lookups_are_case_sensitive :
  let lower := toLowerCase Fixture.addr0 in
  let accounts := [Fixture.account0] in
  let unavailable :=
    (Abrupt (Error "Account not available for signing"), fresh)
    : completion any * store in
  lower ≠ Fixture.addr0
  ∧ toLowerCase lower = toLowerCase (address Fixture.account0)
  ∧ ClientMediated.find_from accounts (TxObj (Fixture.transfer lower))
    = Normal (Some Fixture.account0)
  ∧ RawSend.find_from accounts (TxObj (Fixture.transfer lower)) = Normal None
  ∧ run Fixture.node
      (ClientMediated.personal_sign Fixture.interpolate accounts
         [Str "0x68656c6c6f"; Str lower]) fresh = unavailable
  ∧ run Fixture.node
      (ClientMediated.eth_sign accounts [Str lower; Str "0x68656c6c6f"]) fresh
    = unavailable
  ∧ run Fixture.node
      (ClientMediated.eth_signTypedData accounts [Str lower; Opaque 0]) fresh
    = unavailable
  ∧ run Fixture.node
      (ClientMediated.eth_signTypedData_v4 accounts [Str lower; Opaque 0]) fresh
    = unavailable
  ∧ ClientMediated.shouldImpersonate accounts
      (Fixture.client_options (Some (mode_list [Fixture.addr0])) false)
      (Some lower)
    = Normal false.
Proof. repeat split. discriminate. Qed.

(** *** The value of a transaction *)

(** C7: [eth_sendTransaction] of the raw-submission revision, asked to
    transfer 16 wei from a local account, has a transaction without
    [value] signed and submitted; [eth_signTransaction] of the same
    revision signs the same request with [value] 16. *)
Theorem raw_send_drops_value :
  let request16 := TxObj (Fixture.transfer Fixture.addr0) in
  let parsed :=
    {| type_ := legacy; to := Some Fixture.stranger; data := None;
       gas := Some 21000%Z; nonce := Some (parseInt "0x1" 16);
       chainId := None; accessList := None; gasPrice := Some 1000000000%Z;
       maxFeePerGas := None; maxPriorityFeePerGas := None; value := None |} in
  tx_value (Fixture.transfer Fixture.addr0) = Some "0x10"
  ∧ run Fixture.node
      (RawSend.eth_sendTransaction [Fixture.account0]
         (Fixture.raw_options None) [request16]) fresh
    = (Normal (Str "0xaa"),
       {| clients_var := None; constructed := 0;
          trace := [signTransaction Fixture.account0 parsed;
                    provider_request "eth_sendRawTransaction"
                      (Some [Str "0x02f8"])] |})
  ∧ run Fixture.node
      (RawSend.eth_signTransaction [Fixture.account0] [request16]) fresh
    = (Normal (Str "0x02f8"),
       {| clients_var := None; constructed := 0;
          trace := [signTransaction Fixture.account0
                      (RawSend.with_value parsed 16%Z)] |}).
Proof. repeat split. Qed.

(** *** The client cache *)

Lemma getClients_cached (w : world) (σ : store) (c : Clients) :
  clients_var σ = Some c -> run w ClientMediated.getClients σ = (Normal c, σ).
Proof. intros H. simpl. by rewrite H. Qed.

Lemma getClients_first (w : world) (σ : store) (v : any) :
  clients_var σ = None ->
  w (trace σ) (provider_request "eth_chainId" None) = Normal v ->
  run w ClientMediated.getClients σ
  = (Normal {| client_id := constructed σ; chain_id := Number v |},
     set_clients {| client_id := constructed σ; chain_id := Number v |}
       (allocate (record_call (provider_request "eth_chainId" None) σ))).
Proof. intros H Hw. simpl. rewrite H. simpl. by rewrite Hw. Qed.

Lemma advance_first_send accounts options params viemTx account (σ : store) :
  let tx := nth 0 params Undefined in
  (ClientMediated.strict options = true ->
   ClientMediated.validateTransaction tx = Normal ()) ->
  ClientMediated.toViemTransaction tx = Normal viemTx ->
  ClientMediated.find_from accounts tx = Normal account ->
  clients_var σ = None ->
  ∃ k,
    advance (ClientMediated.eth_sendTransaction accounts options params) σ
    = (waiting (on_call (provider_request "eth_chainId" None) k),
       record_call (provider_request "eth_chainId" None) σ).
Proof.
  intros tx Hvalid Hviem Hfind Hnone.
  unfold ClientMediated.eth_sendTransaction. fold tx.
  destruct (ClientMediated.strict options);
    rewrite ?Hvalid by done; rewrite Hviem, Hfind; simpl; rewrite Hnone;
    by eexists.
Qed.

(** Whatever the collaborators answer: once two sends that get as far as
    the clients have been invoked on a new instance, the provider has been
    asked for [eth_chainId] twice. *)
Lemma first_sends_each_look_up (w : world) accounts options params1 params2
    viemTx1 viemTx2 account1 account2 :
  let tx1 := nth 0 params1 Undefined in
  let tx2 := nth 0 params2 Undefined in
  let send := ClientMediated.eth_sendTransaction accounts options in
  (ClientMediated.strict options = true ->
   ClientMediated.validateTransaction tx1 = Normal ()
   ∧ ClientMediated.validateTransaction tx2 = Normal ()) ->
  ClientMediated.toViemTransaction tx1 = Normal viemTx1 ->
  ClientMediated.toViemTransaction tx2 = Normal viemTx2 ->
  ClientMediated.find_from accounts tx1 = Normal account1 ->
  ClientMediated.find_from accounts tx2 = Normal account2 ->
  trace (shared (event_loop w [invoke (send params1); invoke (send params2)]
                   fresh))
  = [provider_request "eth_chainId" None; provider_request "eth_chainId" None].
Proof.
  intros tx1 tx2 send Hvalid Hviem1 Hviem2 Hfind1 Hfind2.
  destruct (advance_first_send accounts options params1 viemTx1 account1 fresh)
    as [k1 H1]; auto; [intros; by apply Hvalid |].
  destruct (advance_first_send accounts options params2 viemTx2 account2
              (record_call (provider_request "eth_chainId" None) fresh))
    as [k2 H2]; auto; [intros; by apply Hvalid |].
  unfold event_loop, send. cbn [fold_left turn_step shared tasks].
  rewrite H1. cbn [shared tasks]. by rewrite H2.
Qed.

(** The calls made only ever grow. *)
Lemma advance_trace (p : prog any) (σ : store) :
  ∃ l, trace (advance p σ).2 = (trace σ ++ l)%list.
Proof.
  revert σ.
  induction p as [a|e|c k IH|k IH|k IH|c k IH|chain k IH]; intros σ; simpl;
    try (by exists []; rewrite app_nil_r).
  - by exists [c].
  - apply IH.
  - apply (IH (set_clients c σ)).
  - apply (IH _ (allocate σ)).
Qed.

Lemma turn_step_trace (w : world) (t : turn) (l : loop) :
  ∃ s, trace (shared (turn_step w t l)) = (trace (shared l) ++ s)%list.
Proof.
  assert (Hkeep : ∃ s, trace (shared l) = (trace (shared l) ++ s)%list)
    by (exists []; by rewrite app_nil_r).
  destruct t as [p|i]; simpl.
  - pose proof (advance_trace p (shared l)) as H.
    by destruct (advance p (shared l)).
  - destruct (tasks l !! i) as [[r|[c k|k]]|]; try done.
    + destruct (w (trace (shared l)) c) as [v|e]; [|done].
      pose proof (advance_trace (k v) (shared l)) as H.
      by destruct (advance (k v) (shared l)).
    + pose proof (advance_trace k (shared l)) as H.
      by destruct (advance k (shared l)).
Qed.

Lemma turns_trace (w : world) (ts : list turn) (l : loop) :
  ∃ s, trace (shared (fold_left (fun l t => turn_step w t l) ts l))
       = (trace (shared l) ++ s)%list.
Proof.
  revert l. induction ts as [|t ts IH]; intros l; simpl.
  - exists []. by rewrite app_nil_r.
  - destruct (IH (turn_step w t l)) as [s2 ->].
    destruct (turn_step_trace w t l) as [s1 ->].
    exists (s1 ++ s2)%list. by rewrite app_assoc.
Qed.

Lemma chain_lookups_app (l1 l2 : list call) :
  chain_lookups (l1 ++ l2)%list = (chain_lookups l1 + chain_lookups l2)%nat.
Proof. unfold chain_lookups. by rewrite filter_app, length_app. Qed.

(** However the event loop goes on after the two invocations, there have
    been at least two chain lookups. *)
Lemma racing_first_sends_look_up_twice (w : world) accounts options
    params1 params2 viemTx1 viemTx2 account1 account2 (ts : list turn) :
  let tx1 := nth 0 params1 Undefined in
  let tx2 := nth 0 params2 Undefined in
  let send := ClientMediated.eth_sendTransaction accounts options in
  (ClientMediated.strict options = true ->
   ClientMediated.validateTransaction tx1 = Normal ()
   ∧ ClientMediated.validateTransaction tx2 = Normal ()) ->
  ClientMediated.toViemTransaction tx1 = Normal viemTx1 ->
  ClientMediated.toViemTransaction tx2 = Normal viemTx2 ->
  ClientMediated.find_from accounts tx1 = Normal account1 ->
  ClientMediated.find_from accounts tx2 = Normal account2 ->
  (2 <= chain_lookups
          (trace (shared (event_loop w
                            (invoke (send params1) :: invoke (send params2)
                             :: ts) fresh))))%nat.
Proof.
  intros tx1 tx2 send Hvalid Hviem1 Hviem2 Hfind1 Hfind2.
  pose proof (first_sends_each_look_up w accounts options params1 params2
                viemTx1 viemTx2 account1 account2 Hvalid Hviem1 Hviem2
                Hfind1 Hfind2) as Hboth.
  change (invoke (send params1) :: invoke (send params2) :: ts)
    with ([invoke (send params1); invoke (send params2)] ++ ts)%list.
  unfold event_loop in *. rewrite fold_left_app.
  match goal with
  | |- context [fold_left ?f ts ?l] =>
      destruct (turns_trace w ts l) as [s Hs]
  end.
  rewrite Hs. fold send in Hboth. rewrite Hboth, chain_lookups_app.
  change (chain_lookups [_; _]) with 2%nat. lia.
Qed.

(** Once the clients are cached, a send neither looks the chain up nor
    constructs anything. *)
Lemma later_sends_reuse_clients (w : world) (σ σ1 : store) (c : Clients)
    (r : completion Clients) :
  clients_var σ = Some c ->
  run w ClientMediated.getClients σ = (r, σ1) -> r = Normal c ∧ σ1 = σ.
Proof. intros H. rewrite (getClients_cached w σ c H). by intros [= <- <-]. Qed.

(** C8: two first [eth_sendTransaction] requests that are both in flight
    before a chain lookup has settled each ask the provider for
    [eth_chainId] and each construct clients; the two transactions are
    sent through different clients, and the one constructed last stays in
    the cache. *)
Theorem concurrent_first_sends_build_two_clients :
  let send :=
    ClientMediated.eth_sendTransaction [Fixture.account0]
      (Fixture.client_options None false)
      [TxObj (Fixture.transfer Fixture.addr0)] in
  let after := event_loop Fixture.node (Fixture.two_first_sends send send) fresh in
  tasks after = [settled (Normal (Str "0xbb")); settled (Normal (Str "0xbb"))]
  ∧ chain_lookups (trace (shared after)) = 2%nat
  ∧ constructed (shared after) = 2%nat
  ∧ client_id <$> clients_var (shared after) = Some 1%nat
  ∧ (∃ tx a,
       drop 2 (trace (shared after))
       = [wallet_sendTransaction
            {| client_id := 0; chain_id := Number (Str "0x7a69") |} tx a;
          wallet_sendTransaction
            {| client_id := 1; chain_id := Number (Str "0x7a69") |} tx a]).
Proof. repeat split. by eexists _, _. Qed.

(** *** [eth_sendTransaction], step by step *)

Lemma run_lift {A : Type} (w : world) (c : completion A) (σ : store) :
  run w (lift c) σ = (c, σ).
Proof. by destruct c. Qed.

Lemma run_await (w : world) (c : call) (σ : store) :
  run w (await c) σ = (w (trace σ) c, record_call c σ).
Proof. unfold await. simpl. by destruct (w (trace σ) c). Qed.

Ltac run_step :=
  rewrite run_bind, ?run_lift, ?run_await_own, ?run_await; lazy beta iota.

(** Unlocking an address and handing the request on as it came. *)
Lemma run_impersonate_then_forward (w : world) (sender : option string)
    (tx : any) (σ : store) :
  run w (_ ← await (impersonateAccount sender);
         await (provider_request "eth_sendTransaction" (Some [tx]))) σ
  = match w (trace σ) (impersonateAccount sender) with
    | Normal _ =>
        (w (trace σ ++ [impersonateAccount sender])%list
           (provider_request "eth_sendTransaction" (Some [tx])),
         record_call (provider_request "eth_sendTransaction" (Some [tx]))
           (record_call (impersonateAccount sender) σ))
    | Abrupt e => (Abrupt e, record_call (impersonateAccount sender) σ)
    end.
Proof.
  run_step. by destruct (w (trace σ) (impersonateAccount sender)).
Qed.

Lemma RawSend_send (w : world) accounts options params σ :
  run w (RawSend.eth_sendTransaction accounts options params) σ =
  let tx := nth 0 params Undefined in
  match RawSend.find_from accounts tx with
  | Abrupt e => (Abrupt e, σ)
  | Normal account =>
      match (if RawSend.not_always options then account else None) with
      | Some account =>
          match RawSend.parseTxParams tx with
          | Abrupt e => (Abrupt e, σ)
          | Normal parsed =>
              run w (signedTx ← await (signTransaction account parsed);
                     await (provider_request "eth_sendRawTransaction"
                              (Some [signedTx]))) σ
          end
      | None =>
          match RawSend.impersonate options with
          | Some _ =>
              match tx_view tx with
              | Abrupt e => (Abrupt e, σ)
              | Normal t =>
                  if RawSend.shouldImpersonate accounts options (tx_from t)
                  then
                    run w (_ ← await (impersonateAccount (tx_from t));
                           await (provider_request "eth_sendTransaction"
                                    (Some [tx]))) σ
                  else
                    (Abrupt (Error
                       "Account not available, not even as impersonation"), σ)
              end
          | None => (Abrupt (Error "Account not available"), σ)
          end
      end
  end.
Proof.
  unfold RawSend.eth_sendTransaction. lazy zeta.
  set (tx := nth 0 params Undefined).
  run_step. destruct (RawSend.find_from accounts tx) as [account|e];
    [|reflexivity].
  destruct (if RawSend.not_always options then account else None).
  - run_step. by destruct (RawSend.parseTxParams tx).
  - destruct (RawSend.impersonate options); [|reflexivity].
    run_step. destruct (tx_view tx) as [t|e]; [|reflexivity].
    by destruct (RawSend.shouldImpersonate accounts options (tx_from t)).
Qed.

Lemma ClientMediated_send (w : world) accounts options params σ :
  run w (ClientMediated.eth_sendTransaction accounts options params) σ =
  let tx := nth 0 params Undefined in
  match (if ClientMediated.strict options
         then ClientMediated.validateTransaction tx else Normal ()) with
  | Abrupt e => (Abrupt e, σ)
  | Normal _ =>
  match ClientMediated.toViemTransaction tx with
  | Abrupt e => (Abrupt e, σ)
  | Normal viemTx =>
  match ClientMediated.find_from accounts tx with
  | Abrupt e => (Abrupt e, σ)
  | Normal account =>
  match run w ClientMediated.getClients σ with
  | (Abrupt e, σ1) => (Abrupt e, σ1)
  | (Normal clients, σ1) =>
      match (if ClientMediated.not_always options then account else None) with
      | Some account =>
          run w (await (wallet_sendTransaction clients viemTx account)) σ1
      | None =>
          match ClientMediated.impersonate options with
          | Some _ =>
              match tx_view tx with
              | Abrupt e => (Abrupt e, σ1)
              | Normal t =>
                  match ClientMediated.shouldImpersonate accounts options
                          (tx_from t) with
                  | Abrupt e => (Abrupt e, σ1)
                  | Normal true =>
                      run w (_ ← await (impersonateAccount (tx_from t));
                             await (provider_request "eth_sendTransaction"
                                      (Some [tx]))) σ1
                  | Normal false =>
                      (Abrupt (Error
                         "Account not available, not even as impersonation"),
                       σ1)
                  end
              end
          | None => (Abrupt (Error "Account not available"), σ1)
          end
      end
  end end end end.
Proof.
  unfold ClientMediated.eth_sendTransaction. lazy zeta.
  set (tx := nth 0 params Undefined).
  run_step.
  assert (Hfirst :
    run w (if ClientMediated.strict options
           then lift (ClientMediated.validateTransaction tx) else Return ()) σ
    = ((if ClientMediated.strict options
        then ClientMediated.validateTransaction tx else Normal ()), σ)).
  { destruct (ClientMediated.strict options); [apply run_lift | reflexivity]. }
  rewrite Hfirst. clear Hfirst.
  destruct (if ClientMediated.strict options then _ else _) as [[]|e];
    [|reflexivity].
  run_step. destruct (ClientMediated.toViemTransaction tx) as [viemTx|e];
    [|reflexivity].
  run_step. destruct (ClientMediated.find_from accounts tx) as [account|e];
    [|reflexivity].
  run_step.
  destruct (run w ClientMediated.getClients σ) as [[clients|e] σ1];
    [|reflexivity].
  destruct (if ClientMediated.not_always options then account else None);
    [reflexivity|].
  destruct (ClientMediated.impersonate options); [|reflexivity].
  run_step. destruct (tx_view tx) as [t|e]; [|reflexivity].
  run_step.
  destruct (ClientMediated.shouldImpersonate accounts options (tx_from t))
    as [[]|e]; reflexivity.
Qed.

(** *** Counting impersonations *)

Lemma impersonations_snoc (l : list call) (c : call) :
  impersonations (l ++ [c])%list
  = (impersonations l + (if is_impersonation c then 1 else 0))%nat.
Proof.
  unfold impersonations. rewrite filter_app, length_app.
  destruct c; reflexivity.
Qed.

Lemma getClients_trace (w : world) (σ σ1 : store) (r : completion Clients) :
  run w ClientMediated.getClients σ = (r, σ1) ->
  trace σ1 = trace σ
  ∨ trace σ1 = (trace σ ++ [provider_request "eth_chainId" None])%list.
Proof.
  simpl. destruct (clients_var σ); simpl.
  - intros [= _ <-]. by left.
  - destruct (w (trace σ) _); intros [= _ <-]; by right.
Qed.

Lemma getClients_impersonations (w : world) (σ σ1 : store)
    (r : completion Clients) :
  run w ClientMediated.getClients σ = (r, σ1) ->
  impersonations (trace σ1) = impersonations (trace σ).
Proof.
  intros E. apply getClients_trace in E as [-> | ->]; [done |].
  rewrite impersonations_snoc. simpl. lia.
Qed.

(** *** Sending from a local account *)

(** C1, as stated, fails in the wallet-client revision: a request from a
    local account with [type: "0x9"] is rejected before anything is
    signed or sent. *)
Lemma local_account_with_unsupported_type_is_not_sent :
  let request9 :=
    TxObj (Fixture.with_type "0x9" (Fixture.transfer Fixture.addr0)) in
  let options := Fixture.client_options None false in
  ClientMediated.find_from [Fixture.account0] request9
  = Normal (Some Fixture.account0)
  ∧ ClientMediated.not_always options = true
  ∧ run Fixture.node
      (ClientMediated.eth_sendTransaction [Fixture.account0] options
         [request9]) fresh
    = (Abrupt (Error "tx type 0x9 not implemented"), fresh).
Proof. repeat split. Qed.

(** C1 (amended): when [from] matches a local account and the mode is not
    ['always'], the impersonator is never invoked, whatever else happens.
    If moreover the transaction normalizes and, in the raw-submission
    revision, the signer fulfils, resp. in the wallet-client revision strict
    validation (when enabled) passes and the clients are obtained, then the
    transaction is signed for that account and broadcast, and the handler
    settles as the broadcast does. *)
Theorem local_account_is_signed_for_locally :
  (∀ (w : world) accounts options params account σ,
     let tx := nth 0 params Undefined in
     let send := RawSend.eth_sendTransaction accounts options params in
     RawSend.find_from accounts tx = Normal (Some account) ->
     RawSend.not_always options = true ->
     impersonations (trace (run w send σ).2) = impersonations (trace σ)
     ∧ ∀ parsed signedTx,
         RawSend.parseTxParams tx = Normal parsed ->
         w (trace σ) (signTransaction account parsed) = Normal signedTx ->
         run w send σ
         = (w (trace σ ++ [signTransaction account parsed])%list
              (provider_request "eth_sendRawTransaction" (Some [signedTx])),
            record_call
              (provider_request "eth_sendRawTransaction" (Some [signedTx]))
              (record_call (signTransaction account parsed) σ)))
  ∧ (∀ (w : world) accounts options params account σ,
       let tx := nth 0 params Undefined in
       let send := ClientMediated.eth_sendTransaction accounts options params in
       ClientMediated.find_from accounts tx = Normal (Some account) ->
       ClientMediated.not_always options = true ->
       impersonations (trace (run w send σ).2) = impersonations (trace σ)
       ∧ ∀ viemTx clients σ1,
           (ClientMediated.strict options = true ->
            ClientMediated.validateTransaction tx = Normal ()) ->
           ClientMediated.toViemTransaction tx = Normal viemTx ->
           run w ClientMediated.getClients σ = (Normal clients, σ1) ->
           run w send σ
           = (w (trace σ1) (wallet_sendTransaction clients viemTx account),
              record_call (wallet_sendTransaction clients viemTx account) σ1)).
Proof.
  split.
  - intros w accounts options params account σ tx send Hfind Hmode.
    subst send. rewrite RawSend_send. lazy zeta. fold tx.
    rewrite Hfind, Hmode. split.
    + destruct (RawSend.parseTxParams tx) as [parsed|e]; [|done].
      run_step.
      destruct (w (trace σ) (signTransaction account parsed)) as [s|e];
        lazy beta iota; rewrite ?run_await; cbn [snd trace record_call];
        rewrite !impersonations_snoc; simpl; lia.
    + intros parsed signedTx -> Hsign. run_step. rewrite Hsign.
      lazy beta iota. by rewrite run_await.
  - intros w accounts options params account σ tx send Hfind Hmode.
    subst send. rewrite ClientMediated_send. lazy zeta. fold tx.
    rewrite Hfind. split.
    + destruct (if ClientMediated.strict options then _ else _) as [[]|e];
        [|done].
      destruct (ClientMediated.toViemTransaction tx) as [viemTx|e]; [|done].
      destruct (run w ClientMediated.getClients σ) as [[clients|e] σ1] eqn:E;
        apply getClients_impersonations in E; [|done].
      rewrite Hmode, run_await. cbn [snd trace record_call].
      rewrite impersonations_snoc. simpl. lia.
    + intros viemTx clients σ1 Hvalid -> ->. rewrite Hmode, run_await.
      destruct (ClientMediated.strict options); [by rewrite Hvalid | done].
Qed.

Lemma local_account_is_signed_for_locally_witness :
  (run Fixture.node
     (RawSend.eth_sendTransaction [Fixture.account0] (Fixture.raw_options None)
        [TxObj (Fixture.transfer Fixture.addr0)]) fresh).1
  = Normal (Str "0xaa")
  ∧ (run Fixture.node
       (ClientMediated.eth_sendTransaction [Fixture.account0]
          (Fixture.client_options None true)
          [TxObj (Fixture.transfer Fixture.addr0)]) fresh).1
    = Normal (Str "0xbb").
Proof.
  split.
  - destruct (proj1 local_account_is_signed_for_locally Fixture.node
                [Fixture.account0] (Fixture.raw_options None)
                [TxObj (Fixture.transfer Fixture.addr0)] Fixture.account0 fresh
                eq_refl eq_refl) as [_ Hsend].
    rewrite (Hsend _ _ eq_refl eq_refl). reflexivity.
  - destruct (proj2 local_account_is_signed_for_locally Fixture.node
                [Fixture.account0] (Fixture.client_options None true)
                [TxObj (Fixture.transfer Fixture.addr0)] Fixture.account0 fresh
                eq_refl eq_refl) as [_ Hsend].
    rewrite (Hsend _ _ _ (fun _ => eq_refl) eq_refl eq_refl). reflexivity.
Defined.

(** *** Sending through the impersonator *)

(** C2, as stated, fails in the wallet-client revision: with mode
    ['unknown'], a request of [type: "0x9"] from an address outside the
    registry is rejected; the impersonator is not invoked and nothing is
    handed to the provider. *)
Lemma stranger_with_unsupported_type_is_not_impersonated :
  let request9 :=
    TxObj (Fixture.with_type "0x9" (Fixture.transfer Fixture.stranger)) in
  let options := Fixture.client_options (Some mode_unknown) false in
  ClientMediated.find_from [Fixture.account0] request9 = Normal None
  ∧ ClientMediated.shouldImpersonate [Fixture.account0] options
      (Some Fixture.stranger) = Normal true
  ∧ run Fixture.node
      (ClientMediated.eth_sendTransaction [Fixture.account0] options
         [request9]) fresh
    = (Abrupt (Error "tx type 0x9 not implemented"), fresh).
Proof. repeat split. Qed.

(** C2 (amended): when no local account is used (none matches, or the mode
    is ['always']), [shouldImpersonate] holds for [tx.from] and the
    impersonator fulfils, the handler invokes the impersonator once, for
    [tx.from], then hands [eth_sendTransaction] with the request as it
    came to the provider, and settles as the provider does.  In the
    wallet-client revision this needs strict validation (when enabled) and
    normalization to pass and the clients to be obtained first. *)
Theorem impersonated_send_forwards_original_request :
  (∀ (w : world) accounts options params t account u σ,
     let tx := nth 0 params Undefined in
     let send := RawSend.eth_sendTransaction accounts options params in
     let unlock := impersonateAccount (tx_from t) in
     let forward := provider_request "eth_sendTransaction" (Some [tx]) in
     tx_view tx = Normal t ->
     RawSend.find_from accounts tx = Normal account ->
     RawSend.not_always options = false ∨ account = None ->
     RawSend.shouldImpersonate accounts options (tx_from t) = true ->
     w (trace σ) unlock = Normal u ->
     run w send σ
     = (w (trace σ ++ [unlock])%list forward,
        record_call forward (record_call unlock σ))
     ∧ trace (run w send σ).2 = (trace σ ++ [unlock; forward])%list
     ∧ impersonations (trace (run w send σ).2)
       = S (impersonations (trace σ)))
  ∧ (∀ (w : world) accounts options params t account viemTx clients u σ σ1,
       let tx := nth 0 params Undefined in
       let send := ClientMediated.eth_sendTransaction accounts options params in
       let unlock := impersonateAccount (tx_from t) in
       let forward := provider_request "eth_sendTransaction" (Some [tx]) in
       tx_view tx = Normal t ->
       (ClientMediated.strict options = true ->
        ClientMediated.validateTransaction tx = Normal ()) ->
       ClientMediated.toViemTransaction tx = Normal viemTx ->
       ClientMediated.find_from accounts tx = Normal account ->
       run w ClientMediated.getClients σ = (Normal clients, σ1) ->
       ClientMediated.not_always options = false ∨ account = None ->
       ClientMediated.shouldImpersonate accounts options (tx_from t)
       = Normal true ->
       w (trace σ1) unlock = Normal u ->
       run w send σ
       = (w (trace σ1 ++ [unlock])%list forward,
          record_call forward (record_call unlock σ1))
       ∧ trace (run w send σ).2 = (trace σ1 ++ [unlock; forward])%list
       ∧ impersonations (trace (run w send σ).2)
         = S (impersonations (trace σ))).
Proof.
  split.
  - intros w accounts options params t account u σ tx send unlock forward
      Hview Hfind Hunused Hshould Hunlock.
    assert (Hrun : run w send σ
                   = (w (trace σ ++ [unlock])%list forward,
                      record_call forward (record_call unlock σ))).
    { subst send. rewrite RawSend_send. lazy zeta. fold tx. rewrite Hfind.
      assert (Hnone : (if RawSend.not_always options then account else None)
                      = None) by (destruct Hunused as [-> | ->]; [done |];
                                  by destruct (RawSend.not_always options)).
      rewrite Hnone.
      destruct (RawSend.impersonate options) as [mode|] eqn:Himp.
      - rewrite Hview, Hshould, run_impersonate_then_forward.
        fold unlock. by rewrite Hunlock.
      - unfold RawSend.shouldImpersonate in Hshould.
        by rewrite Himp in Hshould. }
    rewrite Hrun. cbn [snd trace record_call].
    split; [done |]. split; [by rewrite <- app_assoc |].
    rewrite !impersonations_snoc. simpl. lia.
  - intros w accounts options params t account viemTx clients u σ σ1 tx send
      unlock forward Hview Hvalid Hviem Hfind Hclients Hunused Hshould Hunlock.
    assert (Hrun : run w send σ
                   = (w (trace σ1 ++ [unlock])%list forward,
                      record_call forward (record_call unlock σ1))).
    { subst send. rewrite ClientMediated_send. lazy zeta. fold tx.
      rewrite Hviem, Hfind, Hclients.
      assert (Hnone :
        (if ClientMediated.not_always options then account else None) = None)
        by (destruct Hunused as [-> | ->]; [done |];
            by destruct (ClientMediated.not_always options)).
      rewrite Hnone.
      assert (Hpass :
        (if ClientMediated.strict options
         then ClientMediated.validateTransaction tx else Normal ())
        = Normal ())
        by (destruct (ClientMediated.strict options); [by apply Hvalid | done]).
      rewrite Hpass.
      destruct (ClientMediated.impersonate options) as [mode|] eqn:Himp.
      - rewrite Hview, Hshould, run_impersonate_then_forward.
        fold unlock. by rewrite Hunlock.
      - unfold ClientMediated.shouldImpersonate in Hshould.
        by rewrite Himp in Hshould. }
    rewrite Hrun. cbn [snd trace record_call].
    split; [done |]. split; [by rewrite <- app_assoc |].
    rewrite !impersonations_snoc.
    rewrite (getClients_impersonations _ _ _ _ Hclients). simpl. lia.
Qed.

Lemma impersonated_send_forwards_original_request_witness :
  let request := TxObj (Fixture.transfer Fixture.stranger) in
  let unlock := impersonateAccount (Some Fixture.stranger) in
  let forward := provider_request "eth_sendTransaction" (Some [request]) in
  trace (run Fixture.node
           (RawSend.eth_sendTransaction [Fixture.account0]
              (Fixture.raw_options (Some mode_unknown)) [request]) fresh).2
  = [unlock; forward]
  ∧ trace (run Fixture.node
             (ClientMediated.eth_sendTransaction [Fixture.account0]
                (Fixture.client_options (Some mode_unknown) true)
                [request]) fresh).2
    = [provider_request "eth_chainId" None; unlock; forward].
Proof.
  intros request unlock forward. split.
  - apply (proj1 impersonated_send_forwards_original_request Fixture.node
             [Fixture.account0] (Fixture.raw_options (Some mode_unknown))
             [request] (Fixture.transfer Fixture.stranger) None Undefined fresh
             eq_refl eq_refl (or_intror eq_refl) eq_refl eq_refl).
  - apply (proj2 impersonated_send_forwards_original_request Fixture.node
             [Fixture.account0]
             (Fixture.client_options (Some mode_unknown) true)
             [request] (Fixture.transfer Fixture.stranger) None _ _ Undefined
             fresh _ eq_refl (fun _ => eq_refl) eq_refl eq_refl eq_refl
             (or_intror eq_refl) eq_refl eq_refl).
Defined.

(** *** Sending from an address that is not available *)

(** C3, as stated, fails in the wallet-client revision.  With mode
    ['list'] and an empty list, a request of [type: "0x9"] from an address
    outside the registry fails with the error of the normalizer, not with
    one of the two messages for an unavailable account; and a well-formed
    request on a new instance fails only after the provider was asked for
    [eth_chainId]. *)
Lemma unavailable_sender_fails_otherwise :
  let options := Fixture.client_options (Some (mode_list [])) false in
  let send request :=
    run Fixture.node
      (ClientMediated.eth_sendTransaction [Fixture.account0] options
         [TxObj request]) fresh in
  ClientMediated.find_from [Fixture.account0]
    (TxObj (Fixture.transfer Fixture.stranger)) = Normal None
  ∧ ClientMediated.shouldImpersonate [Fixture.account0] options
      (Some Fixture.stranger) = Normal false
  ∧ (send (Fixture.with_type "0x9" (Fixture.transfer Fixture.stranger))).1
    = Abrupt (Error "tx type 0x9 not implemented")
  ∧ ¬ AccountUnavailable (Error "tx type 0x9 not implemented")
  ∧ (send (Fixture.transfer Fixture.stranger)).1
    = Abrupt (Error "Account not available, not even as impersonation")
  ∧ trace (send (Fixture.transfer Fixture.stranger)).2
    = [provider_request "eth_chainId" None].
Proof.
  repeat split. intros [H | H]; discriminate H.
Qed.

(** C3 (amended): when no local account is used and [shouldImpersonate]
    is false for [tx.from] (in particular when no impersonation is
    configured), the handler fails with ["Account not available, not even
    as impersonation"] if impersonation is configured and with ["Account
    not available"] if not, two different messages, without invoking the
    impersonator or handing the transaction to the provider.  In the
    wallet-client revision this needs strict validation (when enabled) and
    normalization to pass and the clients to be obtained first, which on
    a new instance asks the provider for [eth_chainId]. *)
Theorem unavailable_sender_is_rejected :
  (∀ (w : world) accounts options params t account σ,
     let tx := nth 0 params Undefined in
     tx_view tx = Normal t ->
     RawSend.find_from accounts tx = Normal account ->
     RawSend.not_always options = false ∨ account = None ->
     RawSend.shouldImpersonate accounts options (tx_from t) = false ->
     run w (RawSend.eth_sendTransaction accounts options params) σ
     = (Abrupt (Error
          match RawSend.impersonate options with
          | Some _ => "Account not available, not even as impersonation"
          | None => "Account not available"
          end), σ))
  ∧ (∀ (w : world) accounts options params t account viemTx clients σ σ1,
       let tx := nth 0 params Undefined in
       tx_view tx = Normal t ->
       (ClientMediated.strict options = true ->
        ClientMediated.validateTransaction tx = Normal ()) ->
       ClientMediated.toViemTransaction tx = Normal viemTx ->
       ClientMediated.find_from accounts tx = Normal account ->
       run w ClientMediated.getClients σ = (Normal clients, σ1) ->
       ClientMediated.not_always options = false ∨ account = None ->
       ClientMediated.shouldImpersonate accounts options (tx_from t)
       = Normal false ->
       run w (ClientMediated.eth_sendTransaction accounts options params) σ
       = (Abrupt (Error
            match ClientMediated.impersonate options with
            | Some _ => "Account not available, not even as impersonation"
            | None => "Account not available"
            end), σ1)
       ∧ (trace σ1 = trace σ
          ∨ trace σ1
            = (trace σ ++ [provider_request "eth_chainId" None])%list))
  ∧ "Account not available"
    ≠ "Account not available, not even as impersonation".
Proof.
  split; [|split; [|discriminate]].
  - intros w accounts options params t account σ tx
      Hview Hfind Hunused Hshould.
    rewrite RawSend_send. lazy zeta. fold tx. rewrite Hfind.
    assert (Hnone : (if RawSend.not_always options then account else None)
                    = None) by (destruct Hunused as [-> | ->]; [done |];
                                by destruct (RawSend.not_always options)).
    rewrite Hnone.
    destruct (RawSend.impersonate options); [|done].
    by rewrite Hview, Hshould.
  - intros w accounts options params t account viemTx clients σ σ1 tx
      Hview Hvalid Hviem Hfind Hclients Hunused Hshould.
    split; [|by apply getClients_trace in Hclients].
    rewrite ClientMediated_send. lazy zeta. fold tx.
    rewrite Hviem, Hfind, Hclients.
    assert (Hnone :
      (if ClientMediated.not_always options then account else None) = None)
      by (destruct Hunused as [-> | ->]; [done |];
          by destruct (ClientMediated.not_always options)).
    rewrite Hnone.
    assert (Hpass :
      (if ClientMediated.strict options
       then ClientMediated.validateTransaction tx else Normal ())
      = Normal ())
      by (destruct (ClientMediated.strict options); [by apply Hvalid | done]).
    rewrite Hpass.
    destruct (ClientMediated.impersonate options); [|done].
    by rewrite Hview, Hshould.
Qed.

Lemma unavailable_sender_is_rejected_witness :
  let request := TxObj (Fixture.transfer Fixture.stranger) in
  run Fixture.node
    (RawSend.eth_sendTransaction [Fixture.account0]
       (Fixture.raw_options (Some (mode_list []))) [request]) fresh
  = (Abrupt (Error "Account not available, not even as impersonation"), fresh)
  ∧ run Fixture.node
      (RawSend.eth_sendTransaction [Fixture.account0]
         (Fixture.raw_options None) [request]) fresh
    = (Abrupt (Error "Account not available"), fresh)
  ∧ (run Fixture.node
       (ClientMediated.eth_sendTransaction [Fixture.account0]
          (Fixture.client_options (Some (mode_list [])) true)
          [request]) fresh).1
    = Abrupt (Error "Account not available, not even as impersonation").
Proof.
  intros request. split; [|split].
  - apply (proj1 unavailable_sender_is_rejected Fixture.node
             [Fixture.account0] (Fixture.raw_options (Some (mode_list [])))
             [request] (Fixture.transfer Fixture.stranger) None fresh
             eq_refl eq_refl (or_intror eq_refl) eq_refl).
  - apply (proj1 unavailable_sender_is_rejected Fixture.node
             [Fixture.account0] (Fixture.raw_options None)
             [request] (Fixture.transfer Fixture.stranger) None fresh
             eq_refl eq_refl (or_intror eq_refl) eq_refl).
  - destruct (proj1 (proj2 unavailable_sender_is_rejected) Fixture.node
                [Fixture.account0]
                (Fixture.client_options (Some (mode_list [])) true)
                [request] (Fixture.transfer Fixture.stranger) None _ _ fresh _
                eq_refl (fun _ => eq_refl) eq_refl eq_refl eq_refl
                (or_intror eq_refl) eq_refl) as [Hrun _].
    rewrite Hrun. reflexivity.
Defined.


(** ** Further properties of the two revisions *)

(** *** More on the registry *)



(** X2: with a non-empty mnemonic, no private keys and a [numAccounts]
    other than 0, the registry holds the accounts of the indices below
    [numAccounts], in order; a negative [numAccounts] leaves it empty. *)
Theorem mnemonic_gives_accounts_in_index_order addressOf (m : string) (n : Z) :
  m ≠ "" -> n ≠ 0 ->
  let accounts :=
    registry addressOf
      (Some {| privateKeys := None; mnemonic := Some m;
               numAccounts := Some n |}) in
  length accounts = Z.to_nat n
  ∧ (∀ i : nat, (Z.of_nat i < n) ->
       accounts !! i = Some (mnemonicToAccount addressOf m i))
  ∧ (n < 0 -> accounts = []).
Proof.
  intros Hm Hn accounts. unfold accounts. rewrite registry_mnemonic by done.
  assert (Hnum : num_or_10 (Some n) = n).
  { unfold num_or_10. destruct (Z.eqb_spec n 0); [contradiction | done]. }
  rewrite Hnum. split; [by rewrite length_map, length_seq |]. split.
  - intros i Hi. rewrite list_lookup_fmap, lookup_seq_lt by lia. done.
  - intros Hneg. by replace (Z.to_nat n) with 0%nat by lia.
Qed.

Lemma mnemonic_gives_accounts_in_index_order_witness :
  registry Fixture.addressOf
    (Some {| privateKeys := None; mnemonic := Some Fixture.phrase;
             numAccounts := Some 3 |}) !! 2%nat
  = Some (mnemonicToAccount Fixture.addressOf Fixture.phrase 2).
Proof.
  apply (mnemonic_gives_accounts_in_index_order Fixture.addressOf
           Fixture.phrase 3 ltac:(discriminate) ltac:(discriminate)).
  reflexivity.
Defined.

(** *** Methods without a handler, and the pending-nonce fix *)

Lemma RawSend_builtin_names interp accounts options (m : string) :
  m ∉ builtin_methods ->
  RawSend.accountHandlers interp accounts options !! m = None.
Proof. intros H. by apply not_elem_of_list_to_map_1. Qed.

Lemma ClientMediated_builtin_names interp accounts options (m : string) :
  m ∉ builtin_methods ->
  ClientMediated.accountHandlers interp accounts options !! m = None.
Proof. intros H. by apply not_elem_of_list_to_map_1. Qed.

(** X3: a method that is no built-in account method, that neither the
    pending-nonce fix nor a caller-supplied handler claims, and that is
    no name a plain object inherits from [Object.prototype], goes to the
    provider with the method and the parameters as they came (missing
    parameters stay missing); the request settles as the provider does. *)
Theorem unclaimed_methods_go_to_the_provider :
  (∀ (w : world) interp accounts options (m : string) params σ,
     m ∉ builtin_methods ->
     m ≠ "eth_getTransactionCount" ∨ RawSend.tevmPendingCountFix options = None ->
     Object_prototype m = None ->
     run w (RawSend.request interp accounts options m params) σ
     = (w (trace σ) (provider_request m params),
        record_call (provider_request m params) σ))
  ∧ (∀ (w : world) interp accounts options (m : string) params σ,
       m ∉ builtin_methods ->
       spreadable (options ≫= ClientMediated.opt_handlers) !! m = None ->
       Object_prototype m = None ->
       run w (ClientMediated.request interp accounts options m params) σ
       = (w (trace σ) (provider_request m params),
          record_call (provider_request m params) σ)).
Proof.
  split.
  - intros w interp accounts options m params σ Hm Hfix Hplain.
    assert (Hnone : RawSend.handlers interp accounts options !! m = None).
    { unfold RawSend.handlers, spread. apply lookup_union_None. split.
      - by apply RawSend_builtin_names.
      - destruct Hfix as [Hne | ->]; [|done].
        unfold RawSend.tevmPendingCountFix.
        destruct (_ ≫= RawSend.tevmPendingCount) as [[]|]; try done.
        simpl. by apply lookup_singleton_ne. }
    unfold RawSend.request, property. rewrite Hnone, Hplain. apply run_await.
  - intros w interp accounts options m params σ Hm Hfree Hplain.
    assert (Hnone :
      ClientMediated.handlers interp accounts options !! m = None).
    { unfold ClientMediated.handlers, spread. apply lookup_union_None.
      split; [exact Hfree | by apply ClientMediated_builtin_names]. }
    unfold ClientMediated.request, property. rewrite Hnone, Hplain.
    apply run_await.
Qed.

Lemma unclaimed_methods_go_to_the_provider_witness :
  run Fixture.node
    (RawSend.request Fixture.interpolate [Fixture.account0]
       (Fixture.raw_options None) "net_version" None) fresh
  = (Normal (Str "0xaa"), record_call (provider_request "net_version" None) fresh)
  ∧ run Fixture.node
      (ClientMediated.request Fixture.interpolate [Fixture.account0]
         (Fixture.client_options None false) "eth_getTransactionCount"
         (Some [Str Fixture.addr0; Str "pending"])) fresh
    = (Normal (Str "0xaa"),
       record_call (provider_request "eth_getTransactionCount"
                      (Some [Str Fixture.addr0; Str "pending"])) fresh).
Proof.
  split.
  - apply (proj1 unclaimed_methods_go_to_the_provider Fixture.node);
      [vm_compute; set_solver | by left | reflexivity].
  - apply (proj2 unclaimed_methods_go_to_the_provider Fixture.node);
      [vm_compute; set_solver | reflexivity | reflexivity].
Defined.

(** A name that [Object.prototype] defines is not forwarded: the inherited
    member is called with the parameters. *)
Example inherited_names_are_not_forwarded :
  run Fixture.node
    (ClientMediated.request Fixture.interpolate [Fixture.account0]
       (Fixture.client_options None false) "toString" None) fresh
  = (Normal (Str "[object Undefined]"), fresh)
  ∧ run Fixture.node
      (RawSend.request Fixture.interpolate [Fixture.account0]
         (Fixture.raw_options None) "constructor" (Some [Str "0x1"])) fresh
    = (Normal (Arr [Str "0x1"]), fresh)
  ∧ (run Fixture.node
       (RawSend.request Fixture.interpolate [Fixture.account0]
          (Fixture.raw_options None) "__proto__" None) fresh).2
    = fresh.
Proof. repeat split. Qed.

(** X4: with the pending-nonce fix on, [eth_getTransactionCount] reaches
    the provider with exactly two parameters: the first as it came, and
    the second with ["pending"] replaced by ["latest"] and anything else
    unchanged. *)
Theorem pending_nonce_is_asked_as_latest (w : world) interp accounts options
    (params : option (list any)) (σ : store) :
  (options ≫= RawSend.opt_fixes) ≫= RawSend.tevmPendingCount = Some true ->
  let who := nth 0 (default [] params) Undefined in
  let tag := nth 1 (default [] params) Undefined in
  let asked t :=
    provider_request "eth_getTransactionCount" (Some [who; t]) in
  let count :=
    run w (RawSend.request interp accounts options "eth_getTransactionCount"
             params) σ in
  (tag = Str "pending" ->
   count = (w (trace σ) (asked (Str "latest")),
            record_call (asked (Str "latest")) σ))
  ∧ (tag ≠ Str "pending" ->
     count = (w (trace σ) (asked tag), record_call (asked tag) σ)).
Proof.
  intros Hfix who tag asked count.
  assert (Hrun : count
    = (w (trace σ) (asked (if strict_eq_any "pending" tag
                           then Str "latest" else tag)),
       record_call (asked (if strict_eq_any "pending" tag
                           then Str "latest" else tag)) σ)).
  { unfold count, RawSend.request, property, RawSend.handlers, spread,
      RawSend.tevmPendingCountFix.
    rewrite Hfix. simpl spreadable.
    rewrite lookup_union_r by reflexivity.
    rewrite lookup_singleton_eq. apply run_await. }
  rewrite Hrun. split.
  - intros ->. reflexivity.
  - intros Hne.
    assert (Hno : strict_eq_any "pending" tag = false).
    { destruct tag as [|s| | |]; try reflexivity. unfold strict_eq_any.
      destruct (String.eqb_spec "pending" s) as [<- | ];
        [by destruct Hne | reflexivity]. }
    by rewrite Hno.
Qed.

Lemma pending_nonce_is_asked_as_latest_witness :
  trace (run Fixture.node
           (RawSend.request Fixture.interpolate [Fixture.account0]
              (Fixture.raw_options None) "eth_getTransactionCount"
              (Some [Str Fixture.addr0; Str "pending"; Str "dropped"]))
           fresh).2
  = [provider_request "eth_getTransactionCount"
       (Some [Str Fixture.addr0; Str "latest"])]
  ∧ trace (run Fixture.node
             (RawSend.request Fixture.interpolate [Fixture.account0]
                (Fixture.raw_options None) "eth_getTransactionCount"
                (Some [Str Fixture.addr0])) fresh).2
    = [provider_request "eth_getTransactionCount"
         (Some [Str Fixture.addr0; Undefined])].
Proof.
  split.
  - destruct (pending_nonce_is_asked_as_latest Fixture.node
                Fixture.interpolate [Fixture.account0]
                (Fixture.raw_options None)
                (Some [Str Fixture.addr0; Str "pending"; Str "dropped"])
                fresh eq_refl) as [H _].
    by rewrite (H eq_refl).
  - destruct (pending_nonce_is_asked_as_latest Fixture.node
                Fixture.interpolate [Fixture.account0]
                (Fixture.raw_options None)
                (Some [Str Fixture.addr0]) fresh eq_refl) as [_ H].
    by rewrite (H ltac:(discriminate)).
Defined.

(** *** Signing with an account *)

Lemma Array_find_elem {A : Type} (f : A -> completion bool) (l : list A)
    (a : A) :
  Array_find f l = Normal (Some a) -> a ∈ l ∧ f a = Normal true.
Proof.
  induction l as [|b l IH]; simpl; [done |].
  destruct (f b) as [[]|e] eqn:E; try done.
  - intros [= ->]. split; [left | done].
  - intros H. destruct (IH H). split; [by right | done].
Qed.

Lemma find_address_elem accounts (v : any) (a : LocalAccount) :
  ClientMediated.find_address accounts v = Some a ->
  a ∈ accounts ∧ v = Str (address a).
Proof.
  unfold ClientMediated.find_address. intros H.
  apply find_some in H as [Hin Heq]. split; [by apply list_elem_of_In |].
  destruct v as [|s| | |]; try done. simpl in Heq.
  by apply String.eqb_eq in Heq as ->.
Qed.

Lemma find_address_first (pre post : list LocalAccount) (a : LocalAccount) :
  (∀ b, b ∈ pre -> address b ≠ address a) ->
  ClientMediated.find_address (pre ++ a :: post) (Str (address a)) = Some a.
Proof.
  unfold ClientMediated.find_address.
  induction pre as [|b pre IH]; intros Hpre; simpl.
  - by rewrite String.eqb_refl.
  - destruct (String.eqb_spec (address b) (address a)) as [Heq|_].
    + exfalso. apply (Hpre b); [left | done].
    + apply IH. intros c Hc. apply Hpre. by right.
Qed.

Lemma find_address_none accounts (v : any) :
  (∀ b, b ∈ accounts -> Str (address b) ≠ v) ->
  ClientMediated.find_address accounts v = None.
Proof.
  intros Hall. destruct (ClientMediated.find_address accounts v) as [a|] eqn:E;
    [|done].
  apply find_address_elem in E as [Hin ->]. by destruct (Hall a Hin).
Qed.

(** X5: whatever the parameters and whatever the collaborators answer, a
    signing method makes no call at all, or one call, and that to the
    signer of an account of the registry; it never turns to the provider
    or to the impersonator, and leaves the client cache alone. *)
Theorem signing_methods_only_reach_registered_signers :
  (∀ (w : world) interp accounts (h : handler) params σ,
     h ∈ [RawSend.personal_sign interp accounts; RawSend.eth_sign accounts;
          RawSend.eth_signTransaction accounts;
          RawSend.eth_signTypedData accounts;
          RawSend.eth_signTypedData_v4 accounts] ->
     let σ' := (run w (h params) σ).2 in
     σ' = σ
     ∨ ∃ c a, σ' = record_call c σ ∧ signer_of c = Some a ∧ a ∈ accounts)
  ∧ (∀ (w : world) interp accounts (h : handler) params σ,
       h ∈ [ClientMediated.personal_sign interp accounts;
            ClientMediated.eth_sign accounts;
            ClientMediated.eth_signTransaction;
            ClientMediated.eth_signTypedData accounts;
            ClientMediated.eth_signTypedData_v4 accounts] ->
       let σ' := (run w (h params) σ).2 in
       σ' = σ
       ∨ ∃ c a, σ' = record_call c σ ∧ signer_of c = Some a ∧ a ∈ accounts).
Proof.
  assert (Hsigned : ∀ (w : world) (accounts : list LocalAccount) c a σ,
    signer_of c = Some a -> a ∈ accounts ->
    (run w (await c) σ).2 = σ
    ∨ ∃ c' a', (run w (await c) σ).2 = record_call c' σ
               ∧ signer_of c' = Some a' ∧ a' ∈ accounts).
  { intros w accounts c a σ Hc Ha. rewrite run_await. right.
    exists c, a. split; [reflexivity | split; assumption]. }
  assert (Hby_address : ∀ (w : world) (accounts : list LocalAccount) v
      (k : LocalAccount -> call) σ,
    (∀ a, signer_of (k a) = Some a) ->
    let σ' := (run w match ClientMediated.find_address accounts v with
                     | None => Throw (Error "Account not available for signing")
                     | Some account => await (k account)
                     end σ).2 in
    σ' = σ
    ∨ ∃ c a, σ' = record_call c σ ∧ signer_of c = Some a ∧ a ∈ accounts).
  { intros w accounts v k σ Hk.
    destruct (ClientMediated.find_address accounts v) as [a|] eqn:E;
      [|by left].
    apply find_address_elem in E as [Hin _]. by apply (Hsigned w accounts _ a). }
  assert (Hpersonal : ∀ (w : world) (interp : any -> string)
      (accounts : list LocalAccount) params σ,
    let σ' := (run w (ClientMediated.personal_sign interp accounts params) σ).2 in
    σ' = σ
    ∨ ∃ c a, σ' = record_call c σ ∧ signer_of c = Some a ∧ a ∈ accounts).
  { intros w interp accounts params σ. unfold ClientMediated.personal_sign.
    destruct (ClientMediated.find_address accounts _) as [a|] eqn:E;
      [|by left].
    apply find_address_elem in E as [Hin _].
    destruct (nth 0 params Undefined); try (by left);
      by apply (Hsigned w accounts _ a). }
  split.
  - intros w interp accounts h params σ Hh.
    repeat (apply elem_of_cons in Hh as [-> | Hh]);
      [apply Hpersonal | | | | | by apply elem_of_nil in Hh].
    + apply (Hby_address w accounts _ (fun a => signMessage a _)). done.
    + unfold RawSend.eth_signTransaction. run_step.
      destruct (RawSend.find_from accounts _) as [[a|]|e] eqn:E;
        try (by left).
      apply Array_find_elem in E as [Hin _].
      run_step. destruct (RawSend.parseTxParams _); [|by left].
      run_step. destruct (tx_view _); [|by left].
      run_step. destruct (BigInt_if_truthy _); [|by left].
      right. eexists _, a. by rewrite run_await.
    + apply (Hby_address w accounts _ (fun a => signTypedData a _)). done.
    + apply (Hby_address w accounts _ (fun a => signTypedData a _)). done.
  - intros w interp accounts h params σ Hh.
    repeat (apply elem_of_cons in Hh as [-> | Hh]);
      [apply Hpersonal | | by left | | | by apply elem_of_nil in Hh].
    + apply (Hby_address w accounts _ (fun a => signMessage a _)). done.
    + apply (Hby_address w accounts _ (fun a => signTypedData a _)). done.
    + apply (Hby_address w accounts _ (fun a => signTypedData a _)). done.
Qed.

Lemma signing_methods_only_reach_registered_signers_witness :
  (run Fixture.node
     (RawSend.eth_signTransaction [Fixture.account0]
        [TxObj (Fixture.transfer Fixture.addr0)]) fresh).2 = fresh
  ∨ ∃ c a,
      (run Fixture.node
         (RawSend.eth_signTransaction [Fixture.account0]
            [TxObj (Fixture.transfer Fixture.addr0)]) fresh).2
      = record_call c fresh
      ∧ signer_of c = Some a ∧ a ∈ [Fixture.account0].
Proof.
  apply (proj1 signing_methods_only_reach_registered_signers Fixture.node
           Fixture.interpolate [Fixture.account0]
           (RawSend.eth_signTransaction [Fixture.account0])).
  do 2 right. left.
Defined.

(** X6: with several accounts of one address in the registry the first
    one signs.  [personal_sign] takes [message, address] and has the
    message signed behind the prefix
    ["\x19Ethereum Signed Message:\n" + length]; [eth_sign] takes
    [address, message] and has the message signed as it came;
    [eth_signTypedData] and [eth_signTypedData_v4] hand the typed data
    over as it came.  Each settles as the signer does. *)
Theorem first_account_of_the_address_signs (w : world) interp
    (pre post : list LocalAccount) (a : LocalAccount) (m : string)
    (payload : any) (σ : store) :
  (∀ b, b ∈ pre -> address b ≠ address a) ->
  let accounts := (pre ++ a :: post)%list in
  let who := Str (address a) in
  let settles (p : prog any) (c : call) :=
    run w p σ = (w (trace σ) c, record_call c σ) in
  settles (ClientMediated.personal_sign interp accounts [Str m; who])
    (signMessage a (Str (prefixed m)))
  ∧ settles (ClientMediated.eth_sign accounts [who; payload])
      (signMessage a payload)
  ∧ settles (ClientMediated.eth_signTypedData accounts [who; payload])
      (signTypedData a payload)
  ∧ settles (ClientMediated.eth_signTypedData_v4 accounts [who; payload])
      (signTypedData a payload)
  ∧ settles (RawSend.personal_sign interp accounts [Str m; who])
      (signMessage a (Str (prefixed m)))
  ∧ settles (RawSend.eth_sign accounts [who; payload])
      (signMessage a payload)
  ∧ settles (RawSend.eth_signTypedData accounts [who; payload])
      (signTypedData a payload)
  ∧ settles (RawSend.eth_signTypedData_v4 accounts [who; payload])
      (signTypedData a payload).
Proof.
  intros Hpre accounts who settles.
  pose proof (find_address_first pre post a Hpre) as Hfind.
  unfold settles, ClientMediated.personal_sign, ClientMediated.eth_sign,
    ClientMediated.eth_signTypedData, ClientMediated.eth_signTypedData_v4,
    RawSend.personal_sign, RawSend.eth_sign, RawSend.eth_signTypedData,
    RawSend.eth_signTypedData_v4.
  cbn [nth]. unfold RawSend.find_address, ClientMediated.find_address in *.
  fold accounts in Hfind. unfold who. rewrite Hfind.
  repeat split; apply run_await.
Qed.

Lemma first_account_of_the_address_signs_witness :
  let twin := {| address := Fixture.addr0; key := PrivateKey Fixture.key1 |} in
  trace (run Fixture.node
           (ClientMediated.personal_sign Fixture.interpolate
              [Fixture.account0; twin] [Str "hello"; Str Fixture.addr0])
           fresh).2
  = [signMessage Fixture.account0
       (Str (String (ascii_of_nat 25) "Ethereum Signed Message:"
             ++ String (ascii_of_nat 10) "5hello"))].
Proof.
  intros twin.
  destruct (first_account_of_the_address_signs Fixture.node
              Fixture.interpolate [] [twin] Fixture.account0 "hello"
              Undefined fresh) as [H _].
  - intros b Hb. by apply elem_of_nil in Hb.
  - exact (f_equal (fun r => trace r.2) H).
Defined.

Example prefixed_counts_code_units :
  let e_acute := String (ascii_of_nat 195) (String (ascii_of_nat 169) "") in
  let emoji :=
    String (ascii_of_nat 240) (String (ascii_of_nat 159)
      (String (ascii_of_nat 152) (String (ascii_of_nat 128) ""))) in
  utf16_length "hello" = 5%nat
  ∧ utf16_length e_acute = 1%nat
  ∧ utf16_length emoji = 2%nat
  ∧ prefixed emoji
    = (String (ascii_of_nat 25) "Ethereum Signed Message:"
       ++ String (ascii_of_nat 10) "2" ++ emoji)%string.
Proof. repeat split. Qed.

(** X7: when no account of the registry has exactly the given address (or
    the address is no string at all), the four signing methods fail with
    ["Account not available for signing"] and call no one. *)
Theorem signing_for_an_unknown_address_fails (w : world) interp accounts
    (who other : any) (σ : store) :
  (∀ b, b ∈ accounts -> Str (address b) ≠ who) ->
  let fails (p : prog any) :=
    run w p σ = (Abrupt (Error "Account not available for signing"), σ) in
  fails (ClientMediated.personal_sign interp accounts [other; who])
  ∧ fails (ClientMediated.eth_sign accounts [who; other])
  ∧ fails (ClientMediated.eth_signTypedData accounts [who; other])
  ∧ fails (ClientMediated.eth_signTypedData_v4 accounts [who; other])
  ∧ fails (RawSend.personal_sign interp accounts [other; who])
  ∧ fails (RawSend.eth_sign accounts [who; other])
  ∧ fails (RawSend.eth_signTypedData accounts [who; other])
  ∧ fails (RawSend.eth_signTypedData_v4 accounts [who; other]).
Proof.
  intros Hall fails. pose proof (find_address_none accounts who Hall) as Hfind.
  unfold fails, ClientMediated.personal_sign, ClientMediated.eth_sign,
    ClientMediated.eth_signTypedData, ClientMediated.eth_signTypedData_v4,
    RawSend.personal_sign, RawSend.eth_sign, RawSend.eth_signTypedData,
    RawSend.eth_signTypedData_v4.
  cbn [nth]. unfold RawSend.find_address, ClientMediated.find_address in *.
  rewrite Hfind. by repeat split.
Qed.

Lemma signing_for_an_unknown_address_fails_witness :
  run Fixture.node
    (ClientMediated.eth_signTypedData_v4 [Fixture.account0]
       [Str Fixture.stranger; Opaque 0]) fresh
  = (Abrupt (Error "Account not available for signing"), fresh).
Proof.
  apply (signing_for_an_unknown_address_fails Fixture.node Fixture.interpolate
           [Fixture.account0] (Str Fixture.stranger) (Opaque 0) fresh).
  intros b Hb. apply list_elem_of_singleton in Hb as ->. discriminate.
Defined.

(** *** Looking the sender up *)

Lemma Array_find_ext {A : Type} (f g : A -> completion bool) (l : list A) :
  (∀ a, f a = g a) -> Array_find f l = Array_find g l.
Proof.
  intros Hfg. induction l as [|a l IH]; simpl; [done |].
  by rewrite Hfg, IH.
Qed.

Lemma ClientMediated_find_from accounts (v : any)
    (t : EIP1193TransactionData) :
  tx_view v = Normal t ->
  ClientMediated.find_from accounts v
  = Array_find (ClientMediated.same_address (tx_from t)) accounts.
Proof.
  intros Hview. apply Array_find_ext. intros a. by rewrite Hview.
Qed.

(** With [from] given, the lookup of the sender returns: an account or
    none. *)
Lemma sender_lookup_returns accounts (t : EIP1193TransactionData)
    (s : string) :
  tx_from t = Some s ->
  ∃ account, ClientMediated.find_from accounts (TxObj t) = Normal account.
Proof.
  intros Hfrom. rewrite (ClientMediated_find_from _ (TxObj t) t eq_refl), Hfrom.
  induction accounts as [|a accounts [account IH]]; simpl; [by eexists |].
  destruct (_ =? _)%string; [by eexists |]. by exists account.
Qed.

(** X8: [eth_sendTransaction] of the wallet-client revision looks the
    sender up without regard to letter case and takes the first account
    that fits; it finds none when no address fits.  Without [from], the
    lookup throws a [TypeError] as soon as the registry holds an account,
    and finds none in an empty registry. *)
Theorem send_lookup_ignores_case (t : EIP1193TransactionData) :
  (∀ pre a post s,
     tx_from t = Some s ->
     toLowerCase (address a) = toLowerCase s ->
     (∀ b, b ∈ pre -> toLowerCase (address b) ≠ toLowerCase s) ->
     ClientMediated.find_from (pre ++ a :: post)%list (TxObj t)
     = Normal (Some a))
  ∧ (∀ accounts s,
       tx_from t = Some s ->
       (∀ b, b ∈ accounts -> toLowerCase (address b) ≠ toLowerCase s) ->
       ClientMediated.find_from accounts (TxObj t) = Normal None)
  ∧ (∀ a accounts,
       tx_from t = None ->
       ClientMediated.find_from (a :: accounts) (TxObj t)
       = Abrupt (TypeError "Cannot read properties of undefined")
       ∧ ClientMediated.find_from [] (TxObj t) = Normal None).
Proof.
  split; [|split].
  - intros pre a post s Hfrom Hfit Hpre.
    rewrite (ClientMediated_find_from _ (TxObj t) t eq_refl), Hfrom.
    induction pre as [|b pre IH]; simpl.
    + by rewrite Hfit, String.eqb_refl.
    + destruct (String.eqb_spec (toLowerCase (address b)) (toLowerCase s))
        as [Heq|_].
      * exfalso. apply (Hpre b); [left | done].
      * apply IH. intros c Hc. apply Hpre. by right.
  - intros accounts s Hfrom Hall.
    rewrite (ClientMediated_find_from _ (TxObj t) t eq_refl), Hfrom.
    induction accounts as [|b accounts IH]; simpl; [done |].
    destruct (String.eqb_spec (toLowerCase (address b)) (toLowerCase s))
      as [Heq|_].
    + exfalso. apply (Hall b); [left | done].
    + apply IH. intros c Hc. apply Hall. by right.
  - intros a accounts Hfrom.
    rewrite !(ClientMediated_find_from _ (TxObj t) t eq_refl), Hfrom. done.
Qed.

Lemma send_lookup_ignores_case_witness :
  ClientMediated.find_from [Fixture.account0]
    (TxObj (Fixture.transfer "0xF39FD6E51AAD88F6F4CE6AB8827279CFFFB92266"))
  = Normal (Some Fixture.account0).
Proof.
  apply (proj1 (send_lookup_ignores_case
                  (Fixture.transfer "0xF39FD6E51AAD88F6F4CE6AB8827279CFFFB92266"))
           [] Fixture.account0 [] _ eq_refl eq_refl).
  intros b Hb. by apply elem_of_nil in Hb.
Defined.

Lemma Array_some_find {A : Type} (f : A -> completion bool) (l : list A) :
  Array_some f l
  = match Array_find f l with
    | Normal (Some _) => Normal true
    | Normal None => Normal false
    | Abrupt e => Abrupt e
    end.
Proof.
  induction l as [|a l IH]; simpl; [done |].
  by destruct (f a) as [[]|e].
Qed.

Lemma RawSend_find_from accounts (v : any) (t : EIP1193TransactionData) :
  tx_view v = Normal t ->
  RawSend.find_from accounts v
  = Normal (find (fun a => strict_eq (address a) (tx_from t)) accounts).
Proof.
  intros Hview. unfold RawSend.find_from.
  rewrite (Array_find_ext _
             (fun a => Normal (strict_eq (address a) (tx_from t))))
    by (intros a; by rewrite Hview).
  induction accounts as [|a accounts IH]; simpl; [done |].
  by destruct (strict_eq (address a) (tx_from t)).
Qed.

Lemma existsb_find {A : Type} (f : A -> bool) (l : list A) :
  existsb f l = match find f l with Some _ => true | None => false end.
Proof. induction l as [|a l IH]; simpl; [done |]. by destruct (f a). Qed.

(** X9: in mode ['unknown'] the impersonation policy and the lookup of
    the sender agree: [shouldImpersonate(tx.from)] is true exactly when
    no local account is found for [tx.from], in each revision under its
    own comparison of addresses. *)
Theorem unknown_mode_impersonates_exactly_the_strangers :
  (∀ accounts options (v : any) (t : EIP1193TransactionData),
     RawSend.impersonate options = Some mode_unknown ->
     tx_view v = Normal t ->
     RawSend.find_from accounts v
     = Normal (find (fun a => strict_eq (address a) (tx_from t)) accounts)
     ∧ RawSend.shouldImpersonate accounts options (tx_from t)
       = match find (fun a => strict_eq (address a) (tx_from t)) accounts with
         | Some _ => false
         | None => true
         end)
  ∧ (∀ accounts options (v : any) (t : EIP1193TransactionData),
       ClientMediated.impersonate options = Some mode_unknown ->
       tx_view v = Normal t ->
       ClientMediated.shouldImpersonate accounts options (tx_from t)
       = match ClientMediated.find_from accounts v with
         | Normal (Some _) => Normal false
         | Normal None => Normal true
         | Abrupt e => Abrupt e
         end).
Proof.
  split.
  - intros accounts options v t Hmode Hview.
    split; [by apply RawSend_find_from |].
    unfold RawSend.shouldImpersonate. rewrite Hmode, existsb_find.
    by destruct (find _ accounts).
  - intros accounts options v t Hmode Hview.
    rewrite (ClientMediated_find_from _ _ t Hview).
    unfold ClientMediated.shouldImpersonate.
    rewrite Hmode, Array_some_find.
    by destruct (Array_find _ accounts) as [[]|].
Qed.

Lemma unknown_mode_impersonates_exactly_the_strangers_witness :
  ClientMediated.shouldImpersonate [Fixture.account0]
    (Fixture.client_options (Some mode_unknown) false)
    (Some (toLowerCase Fixture.addr0)) = Normal false
  ∧ RawSend.shouldImpersonate [Fixture.account0]
      (Fixture.raw_options (Some mode_unknown))
      (Some (toLowerCase Fixture.addr0)) = true.
Proof.
  split.
  - apply (proj2 unknown_mode_impersonates_exactly_the_strangers
             [Fixture.account0]
             (Fixture.client_options (Some mode_unknown) false)
             (TxObj (Fixture.transfer (toLowerCase Fixture.addr0)))
             (Fixture.transfer (toLowerCase Fixture.addr0)) eq_refl eq_refl).
  - apply (proj1 unknown_mode_impersonates_exactly_the_strangers
             [Fixture.account0] (Fixture.raw_options (Some mode_unknown))
             (TxObj (Fixture.transfer (toLowerCase Fixture.addr0)))
             (Fixture.transfer (toLowerCase Fixture.addr0)) eq_refl eq_refl).
Defined.

(** *** Validation and normalization in the wallet-client revision *)

Lemma push_if_nil (c : bool) (n : string) (l : list string) :
  ClientMediated.push_if c n l = [] ↔ c = false ∧ l = [].
Proof.
  unfold ClientMediated.push_if. destruct c.
  - split; [|by intros []]. intros H. by apply app_nil in H as [_ ?].
  - by intuition.
Qed.

(** X10: strict validation passes exactly when [from], [gas] and [nonce]
    are present and not empty and the fee fields of the type are present:
    [maxFeePerGas] and [maxPriorityFeePerGas] for type ["0x2"], [gasPrice]
    for every other type.  An empty fee field counts as present. *)
Theorem validateTransaction_passes_iff (t : EIP1193TransactionData) :
  ClientMediated.validateTransaction (TxObj t) = Normal ()
  ↔ truthy (tx_from t) = true ∧ truthy (tx_gas t) = true
    ∧ truthy (tx_nonce t) = true
    ∧ (if bool_decide (tx_type t = Some "0x2")
       then tx_maxFeePerGas t ≠ None ∧ tx_maxPriorityFeePerGas t ≠ None
       else tx_gasPrice t ≠ None).
Proof.
  unfold ClientMediated.validateTransaction. simpl.
  match goal with |- context [String.concat ", " ?E] => set (errors := E) end.
  assert (Hnil : errors = []
    ↔ truthy (tx_from t) = true ∧ truthy (tx_gas t) = true
      ∧ truthy (tx_nonce t) = true
      ∧ (if bool_decide (tx_type t = Some "0x2")
         then tx_maxFeePerGas t ≠ None ∧ tx_maxPriorityFeePerGas t ≠ None
         else tx_gasPrice t ≠ None)).
  { unfold errors. destruct (bool_decide (tx_type t = Some "0x2"));
      rewrite !push_if_nil, !negb_false_iff, !bool_decide_eq_true; tauto. }
  rewrite <- Hnil. destruct errors; simpl; split; congruence.
Qed.

Example empty_gasPrice_passes_validation :
  ClientMediated.validateTransaction
    (TxObj {| tx_from := Some Fixture.addr0; tx_to := None; tx_data := None;
              tx_gas := Some "0x5208"; tx_nonce := Some "0x0";
              tx_chainId := None; tx_value := None; tx_type := None;
              tx_gasPrice := Some ""; tx_maxFeePerGas := None;
              tx_maxPriorityFeePerGas := None; tx_accessList := None |})
  = Normal ().
Proof. reflexivity. Qed.

Lemma BigInt_if_truthy_fails (x : option string) (e : error) :
  BigInt_if_truthy x = Abrupt e -> ∃ m, e = SyntaxError m.
Proof.
  unfold BigInt_if_truthy, BigInt, mbind, completion_bind.
  destruct x as [s|]; [|done]. destruct (truthy (Some s)); [|done].
  destruct (StringToBigInt s); [done |]. intros [= <-]. by eexists.
Qed.

(** X11: what the normalizer of the wallet-client revision hands on.  The
    result is tagged [eip1559] exactly for type ["0x2"] and [eip2930]
    otherwise, never [legacy]; [to] and [data] pass as they came and
    [chainId] is never passed; [gas] and [value] are decoded; type
    ["0x2"] carries the two decoded fee caps and no [gasPrice], every other
    type the decoded [gasPrice] and no fee caps; the access list passes for
    types ["0x1"] and ["0x2"] and is dropped otherwise. *)
Theorem toViemTransaction_shape (v : any) (t : EIP1193TransactionData)
    (r : TransactionRequest) :
  tx_view v = Normal t ->
  ClientMediated.toViemTransaction v = Normal r ->
  (type_ r = eip1559 ↔ tx_type t = Some "0x2")
  ∧ type_ r ≠ legacy
  ∧ to r = tx_to t ∧ data r = tx_data t ∧ chainId r = None
  ∧ nonce r = ClientMediated.Number_if_truthy (tx_nonce t)
  ∧ BigInt_if_truthy (tx_gas t) = Normal (gas r)
  ∧ BigInt_if_truthy (tx_value t) = Normal (value r)
  ∧ (tx_type t = Some "0x2" ->
     gasPrice r = None
     ∧ BigInt_if_truthy (tx_maxFeePerGas t) = Normal (maxFeePerGas r)
     ∧ BigInt_if_truthy (tx_maxPriorityFeePerGas t)
       = Normal (maxPriorityFeePerGas r))
  ∧ (tx_type t ≠ Some "0x2" ->
     maxFeePerGas r = None ∧ maxPriorityFeePerGas r = None
     ∧ BigInt_if_truthy (tx_gasPrice t) = Normal (gasPrice r))
  ∧ accessList r
    = (if bool_decide (tx_type t = Some "0x1")
          || bool_decide (tx_type t = Some "0x2")
       then tx_accessList t else None).
Proof.
  unfold ClientMediated.toViemTransaction, mbind, completion_bind.
  intros -> H.
  destruct (bool_decide_reflect (tx_type t = Some "0x1")) as [H1|H1];
    [|destruct (bool_decide_reflect (tx_type t = Some "0x2")) as [H2|H2]].
  - repeat next_completion. inversion H; subst; clear H. simpl.
    rewrite H1. repeat split; try done; try congruence.
  - repeat next_completion. inversion H; subst; clear H. simpl.
    rewrite H2. repeat split; try done; try congruence.
  - repeat next_completion. inversion H; subst; clear H. simpl.
    repeat split; try done; try congruence.
Qed.

Lemma toViemTransaction_shape_witness :
  ∃ r, ClientMediated.toViemTransaction
         (TxObj (Fixture.with_type "0x2" (Fixture.transfer Fixture.addr0)))
       = Normal r
       ∧ type_ r = eip1559 ∧ gasPrice r = None ∧ value r = Some 16%Z.
Proof.
  eexists. split; [reflexivity |].
  destruct (toViemTransaction_shape
              (TxObj (Fixture.with_type "0x2" (Fixture.transfer Fixture.addr0)))
              _ _ eq_refl eq_refl)
    as (Htype & _ & _ & _ & _ & _ & _ & _ & Hfees & _).
  split; [by apply Htype |]. split; [by apply Hfees | reflexivity].
Defined.

(** X12: the normalizer of the wallet-client revision fails in three ways
    only: with a [TypeError] when there is no transaction to read, with a
    [SyntaxError] when [BigInt] cannot read a quantity, and with
    ["tx type ... not implemented"] when the type is a non-empty string
    other than ["0x0"], ["0x1"] and ["0x2"]. *)
Theorem toViemTransaction_fails_three_ways (v : any) (e : error) :
  ClientMediated.toViemTransaction v = Abrupt e ->
  (v = Undefined ∧ (∃ m, e = TypeError m))
  ∨ (∃ m, e = SyntaxError m)
  ∨ (∃ t s, tx_view v = Normal t ∧ tx_type t = Some s
            ∧ (s ∉ ["0x0"; "0x1"; "0x2"; ""])
            ∧ e = Error ("tx type " ++ s ++ " not implemented")).
Proof.
  unfold ClientMediated.toViemTransaction, mbind, completion_bind.
  destruct (tx_view v) as [t|e0] eqn:Hview.
  2:{ intros [= <-]. left. destruct v; try done. split; [done |].
      injection Hview as <-. by eexists. }
  intros H.
  assert (Hquantity : ∀ x e', BigInt_if_truthy x = Abrupt e' ->
            ∃ m, e' = SyntaxError m) by apply BigInt_if_truthy_fails.
  destruct (bool_decide_reflect (tx_type t = Some "0x1")) as [H1|H1];
    [|destruct (bool_decide_reflect (tx_type t = Some "0x2")) as [H2|H2]].
  - right; left.
    repeat match goal with
    | H : context [match BigInt_if_truthy ?x with _ => _ end] |- _ =>
        destruct (BigInt_if_truthy x) eqn:?; simplify_eq/=;
        try by eapply Hquantity
    end.
  - right; left.
    repeat match goal with
    | H : context [match BigInt_if_truthy ?x with _ => _ end] |- _ =>
        destruct (BigInt_if_truthy x) eqn:?; simplify_eq/=;
        try by eapply Hquantity
    end.
  - destruct (negb (truthy (tx_type t)) || bool_decide (tx_type t = Some "0x0"))
      eqn:Hlegacy.
    + right; left.
      repeat match goal with
      | H : context [match BigInt_if_truthy ?x with _ => _ end] |- _ =>
          destruct (BigInt_if_truthy x) eqn:?; simplify_eq/=;
          try by eapply Hquantity
      end.
    + right; right. apply orb_false_iff in Hlegacy as [Htruthy H0].
      apply negb_false_iff in Htruthy. apply bool_decide_eq_false in H0.
      destruct (tx_type t) as [s|] eqn:Hty; [|done].
      exists t, s. injection H as <-. repeat split; try done.
      simpl in Htruthy. apply negb_true_iff, String.eqb_neq in Htruthy.
      set_solver.
Qed.

Lemma toViemTransaction_fails_three_ways_witness :
  let request :=
    TxObj {| tx_from := Some Fixture.addr0; tx_to := None;
             tx_data := None; tx_gas := Some "21000 gwei";
             tx_nonce := None; tx_chainId := None;
             tx_value := None; tx_type := None;
             tx_gasPrice := None; tx_maxFeePerGas := None;
             tx_maxPriorityFeePerGas := None; tx_accessList := None |} in
  let e := SyntaxError "Cannot convert 21000 gwei to a BigInt" in
  ClientMediated.toViemTransaction request = Abrupt e
  ∧ ((request = Undefined ∧ (∃ m, e = TypeError m))
     ∨ (∃ m, e = SyntaxError m)
     ∨ (∃ t s, tx_view request = Normal t ∧ tx_type t = Some s
               ∧ (s ∉ ["0x0"; "0x1"; "0x2"; ""])
               ∧ e = Error ("tx type " ++ s ++ " not implemented"))).
Proof.
  intros request e. split; [reflexivity |].
  apply (toViemTransaction_fails_three_ways request e). reflexivity.
Defined.

(** X13: in the wallet-client revision a request that fails strict
    validation, normalization or the lookup of its sender (a request
    without parameters among them) is rejected with that error before
    the provider, the impersonator or a signer has been called, and
    before the clients are looked up. *)
Theorem rejected_requests_reach_no_one (w : world) accounts options
    (params : list any) (e : error) (σ : store) :
  let tx := nth 0 params Undefined in
  (ClientMediated.strict options = true
   ∧ ClientMediated.validateTransaction tx = Abrupt e)
  ∨ ((ClientMediated.strict options = true ->
      ClientMediated.validateTransaction tx = Normal ())
     ∧ (ClientMediated.toViemTransaction tx = Abrupt e
        ∨ (∃ viemTx, ClientMediated.toViemTransaction tx = Normal viemTx)
          ∧ ClientMediated.find_from accounts tx = Abrupt e)) ->
  run w (ClientMediated.eth_sendTransaction accounts options params) σ
  = (Abrupt e, σ).
Proof.
  intros tx Hrejected. rewrite ClientMediated_send. lazy zeta. fold tx.
  destruct Hrejected as [[-> ->] | [Hvalid Hlater]]; [done |].
  assert (Hpass :
    (if ClientMediated.strict options
     then ClientMediated.validateTransaction tx else Normal ()) = Normal ())
    by (destruct (ClientMediated.strict options); [by apply Hvalid | done]).
  rewrite Hpass.
  destruct Hlater as [-> | [[viemTx ->] ->]]; done.
Qed.

Lemma rejected_requests_reach_no_one_witness :
  run Fixture.node
    (ClientMediated.request Fixture.interpolate [Fixture.account0]
       (Fixture.client_options (Some mode_always) true)
       "eth_sendTransaction" None) fresh
  = (Abrupt (TypeError "Cannot read properties of undefined"), fresh).
Proof.
  apply (rejected_requests_reach_no_one Fixture.node [Fixture.account0]
           (Fixture.client_options (Some mode_always) true) []).
  left. by split.
Defined.

(** *** The normalizer of the raw-submission revision *)

(** X14: what the normalizer of the raw-submission revision hands on.
    The result is tagged [eip2930] exactly for type ["0x1"], [eip1559]
    exactly for type ["0x2"] and [legacy] for everything else; [to] and
    [data] pass unless empty, the access list passes for every type, and
    [nonce] and [chainId] are parsed in base 16; type ["0x2"] carries the
    two decoded fee caps and no [gasPrice], every other type the decoded
    [gasPrice] and no fee caps.  On a transaction object it fails with a
    [SyntaxError] only: no type is refused. *)
Theorem parseTxParams_shape (v : any) (t : EIP1193TransactionData) :
  tx_view v = Normal t ->
  (∀ r, RawSend.parseTxParams v = Normal r ->
     (type_ r = eip2930 ↔ tx_type t = Some "0x1")
     ∧ (type_ r = eip1559 ↔ tx_type t = Some "0x2")
     ∧ to r = if_truthy (tx_to t) ∧ data r = if_truthy (tx_data t)
     ∧ accessList r = tx_accessList t
     ∧ nonce r = (if truthy (tx_nonce t)
                  then (fun s => parseInt s 16) <$> tx_nonce t else None)
     ∧ chainId r = (if truthy (tx_chainId t)
                    then (fun s => parseInt s 16) <$> tx_chainId t else None)
     ∧ BigInt_if_truthy (tx_gas t) = Normal (gas r)
     ∧ (tx_type t = Some "0x2" ->
        gasPrice r = None
        ∧ BigInt_if_truthy (tx_maxFeePerGas t) = Normal (maxFeePerGas r)
        ∧ BigInt_if_truthy (tx_maxPriorityFeePerGas t)
          = Normal (maxPriorityFeePerGas r))
     ∧ (tx_type t ≠ Some "0x2" ->
        maxFeePerGas r = None ∧ maxPriorityFeePerGas r = None
        ∧ BigInt_if_truthy (tx_gasPrice t) = Normal (gasPrice r)))
  ∧ (∀ e, RawSend.parseTxParams v = Abrupt e -> ∃ m, e = SyntaxError m).
Proof.
  unfold RawSend.parseTxParams, mbind, completion_bind.
  intros ->. split.
  - intros r H.
    destruct (bool_decide_reflect (tx_type t = Some "0x1")) as [H1|H1];
      [|destruct (bool_decide_reflect (tx_type t = Some "0x2")) as [H2|H2]].
    + destruct (BigInt_if_truthy (tx_gas t)); [|done].
      destruct (BigInt_if_truthy (tx_gasPrice t)); [|done].
      injection H as <-. simpl. rewrite H1.
      repeat split; try done; try congruence.
    + destruct (BigInt_if_truthy (tx_gas t)); [|done].
      destruct (BigInt_if_truthy (tx_maxFeePerGas t)); [|done].
      destruct (BigInt_if_truthy (tx_maxPriorityFeePerGas t)); [|done].
      injection H as <-. simpl. rewrite H2.
      repeat split; try done; try congruence.
    + destruct (BigInt_if_truthy (tx_gas t)); [|done].
      destruct (BigInt_if_truthy (tx_gasPrice t)); [|done].
      injection H as <-. simpl.
      repeat split; try done; try congruence.
  - intros e H.
    assert (Hquantity : ∀ x e', BigInt_if_truthy x = Abrupt e' ->
              ∃ m, e' = SyntaxError m) by apply BigInt_if_truthy_fails.
    destruct (bool_decide (tx_type t = Some "0x1"));
      [|destruct (bool_decide (tx_type t = Some "0x2"))];
      repeat match goal with
      | H : context [match BigInt_if_truthy ?x with _ => _ end] |- _ =>
          destruct (BigInt_if_truthy x) eqn:?; simplify_eq/=;
          try by eapply Hquantity
      end.
Qed.

Lemma parseTxParams_shape_witness :
  ∃ r, RawSend.parseTxParams
         (TxObj (Fixture.with_type "0x1" (Fixture.transfer Fixture.addr0)))
       = Normal r
       ∧ type_ r = eip2930 ∧ maxFeePerGas r = None
       ∧ nonce r = Some (parseInt "0x1" 16).
Proof.
  eexists. split; [reflexivity |].
  destruct (proj1 (parseTxParams_shape
                     (TxObj (Fixture.with_type "0x1"
                               (Fixture.transfer Fixture.addr0)))
                     _ eq_refl) _ eq_refl)
    as (Htype & _ & _ & _ & _ & Hnonce & _ & _ & _ & Hfees).
  split; [by apply Htype |]. split; [by apply Hfees | exact Hnonce].
Defined.

(** *** The client cache, one request after the other *)

(** X15: [getClients] asks for [eth_chainId] at most once and constructs
    at most once per call.  When it returns clients, they are in the cache
    and the next call returns the same clients without any call or
    construction; when the chain lookup is rejected, nothing is cached or
    constructed, so the next call asks again. *)
Theorem getClients_caches_what_it_returns (w : world) (σ σ1 : store)
    (r : completion Clients) :
  run w ClientMediated.getClients σ = (r, σ1) ->
  match r with
  | Normal c =>
      clients_var σ1 = Some c
      ∧ run w ClientMediated.getClients σ1 = (Normal c, σ1)
  | Abrupt e =>
      clients_var σ = None
      ∧ σ1 = record_call (provider_request "eth_chainId" None) σ
  end
  ∧ (chain_lookups (trace σ1) <= S (chain_lookups (trace σ)))%nat
  ∧ (constructed σ1 <= S (constructed σ))%nat.
Proof.
  simpl. destruct (clients_var σ) as [c|] eqn:Hcache; simpl.
  - intros [= <- <-]. rewrite Hcache. repeat split; auto.
  - assert (Hone : chain_lookups [provider_request "eth_chainId" None]
                   = 1%nat) by reflexivity.
    destruct (w (trace σ) (provider_request "eth_chainId" None)) as [v|e];
      intros [= <- <-]; cbn [trace clients_var constructed set_clients
                             allocate record_call];
      rewrite chain_lookups_app, Hone; repeat split; auto; lia.
Qed.

Lemma getClients_caches_what_it_returns_witness :
  ∃ σ1 σ2,
    run Fixture.flaky ClientMediated.getClients fresh
    = (Abrupt (Foreign "connection refused"), σ1)
    ∧ clients_var σ1 = None ∧ constructed σ1 = 0%nat
    ∧ run Fixture.flaky ClientMediated.getClients σ1
      = (Normal {| client_id := 0; chain_id := Number (Str "0x7a69") |}, σ2)
    ∧ run Fixture.flaky ClientMediated.getClients σ2
      = (Normal {| client_id := 0; chain_id := Number (Str "0x7a69") |}, σ2).
Proof.
  eexists _, _. split; [reflexivity |].
  split; [reflexivity |]. split; [reflexivity |].
  split; [reflexivity |].
  apply (getClients_caches_what_it_returns Fixture.flaky
           (record_call (provider_request "eth_chainId" None) fresh) _
           (Normal _) eq_refl).
Defined.

Lemma chain_lookups_snoc (l : list call) (c : call) :
  chain_lookups (l ++ [c])%list
  = (chain_lookups l + (if is_chain_lookup c then 1 else 0))%nat.
Proof.
  rewrite chain_lookups_app. unfold chain_lookups at 2. simpl.
  unfold filter. simpl. by destruct (is_chain_lookup c).
Qed.

(** With clients in the cache, a send leaves the cache as it is, looks no
    chain up and constructs nothing. *)
Lemma send_with_cached_clients (w : world) accounts options params
    (c : Clients) (σ : store) :
  clients_var σ = Some c ->
  let σ' :=
    (run w (ClientMediated.eth_sendTransaction accounts options params) σ).2 in
  clients_var σ' = Some c
  ∧ constructed σ' = constructed σ
  ∧ chain_lookups (trace σ') = chain_lookups (trace σ).
Proof.
  intros Hcache. rewrite ClientMediated_send. lazy zeta.
  rewrite (getClients_cached w σ c Hcache).
  destruct (if ClientMediated.strict options then _ else _) as [[]|e];
    [|done].
  destruct (ClientMediated.toViemTransaction _) as [viemTx|e]; [|done].
  destruct (ClientMediated.find_from accounts _) as [account|e]; [|done].
  destruct (if ClientMediated.not_always options then account else None).
  { rewrite run_await. cbn [snd clients_var constructed trace record_call].
    rewrite chain_lookups_snoc. simpl. split; [done |]. split; [done | lia]. }
  destruct (ClientMediated.impersonate options); [|done].
  destruct (tx_view _) as [t|e]; [|done].
  destruct (ClientMediated.shouldImpersonate accounts options (tx_from t))
    as [[]|e]; try done.
  rewrite run_impersonate_then_forward.
  destruct (w (trace σ) (impersonateAccount (tx_from t)));
    cbn [snd clients_var constructed trace record_call];
    rewrite !chain_lookups_snoc; simpl; (split; [done |]; split; [done | lia]).
Qed.

Lemma getClients_caches (w : world) (σ σ1 : store) (c : Clients) :
  run w ClientMediated.getClients σ = (Normal c, σ1) -> clients_var σ1 = Some c.
Proof.
  simpl. destruct (clients_var σ) as [c0|] eqn:Hcache; simpl.
  - by intros [= <- <-].
  - destruct (w (trace σ) (provider_request "eth_chainId" None));
      by intros [= <- <-].
Qed.

Lemma fulfilled_send_has_clients (w : world) accounts options params
    (v : any) (σ σ1 : store) :
  run w (ClientMediated.eth_sendTransaction accounts options params) σ
  = (Normal v, σ1) ->
  ∃ c, clients_var σ1 = Some c.
Proof.
  rewrite ClientMediated_send. lazy zeta.
  destruct (if ClientMediated.strict options then _ else _) as [[]|e];
    [|done].
  destruct (ClientMediated.toViemTransaction _) as [viemTx|e]; [|done].
  destruct (ClientMediated.find_from accounts _) as [account|e]; [|done].
  destruct (run w ClientMediated.getClients σ) as [[c|e] σ0] eqn:Hclients;
    [|done].
  apply getClients_caches in Hclients.
  destruct (if ClientMediated.not_always options then account else None).
  { rewrite run_await. intros [= _ <-]. by exists c. }
  destruct (ClientMediated.impersonate options); [|done].
  destruct (tx_view _) as [t|e]; [|done].
  destruct (ClientMediated.shouldImpersonate accounts options (tx_from t))
    as [[]|e]; try done.
  rewrite run_impersonate_then_forward.
  destruct (w (trace σ0) (impersonateAccount (tx_from t))); [|done].
  intros [= _ <-]. by exists c.
Qed.

(** X16: in the wallet-client revision, once an [eth_sendTransaction] has
    been fulfilled, a later [eth_sendTransaction] on the same instance
    asks for no [eth_chainId], constructs no clients and leaves the cached
    clients in place, whatever the request and however it ends. *)
Theorem later_sends_look_nothing_up (w : world) accounts options
    (params1 params2 : list any) (v : any) (σ σ1 : store) :
  run w (ClientMediated.eth_sendTransaction accounts options params1) σ
  = (Normal v, σ1) ->
  let σ2 :=
    (run w (ClientMediated.eth_sendTransaction accounts options params2) σ1).2
  in
  clients_var σ2 = clients_var σ1
  ∧ constructed σ2 = constructed σ1
  ∧ chain_lookups (trace σ2) = chain_lookups (trace σ1).
Proof.
  intros Hfirst.
  destruct (fulfilled_send_has_clients _ _ _ _ _ _ _ Hfirst) as [c Hc].
  rewrite Hc. by apply send_with_cached_clients.
Qed.

Lemma later_sends_look_nothing_up_witness :
  let send from :=
    ClientMediated.eth_sendTransaction [Fixture.account0]
      (Fixture.client_options (Some mode_unknown) false)
      [TxObj (Fixture.transfer from)] in
  let σ1 := (run Fixture.node (send Fixture.addr0) fresh).2 in
  let σ2 := (run Fixture.node (send Fixture.stranger) σ1).2 in
  chain_lookups (trace σ1) = 1%nat
  ∧ chain_lookups (trace σ2) = 1%nat ∧ constructed σ2 = 1%nat.
Proof.
  intros send σ1 σ2.
  destruct (later_sends_look_nothing_up Fixture.node [Fixture.account0]
              (Fixture.client_options (Some mode_unknown) false)
              [TxObj (Fixture.transfer Fixture.addr0)]
              [TxObj (Fixture.transfer Fixture.stranger)]
              (Str "0xbb") fresh σ1 eq_refl) as (_ & Hbuilt & Hlooked).
  split; [reflexivity |]. split.
  - exact Hlooked.
  - exact Hbuilt.
Defined.

(** *** When a collaborator refuses *)

(** X17: when the impersonator rejects, the handler rejects with the same
    error and the transaction is not handed to the provider: the call to
    the impersonator is the last call made. *)
Theorem refused_impersonation_is_not_forwarded :
  (∀ (w : world) accounts options params t account e σ,
     let tx := nth 0 params Undefined in
     let unlock := impersonateAccount (tx_from t) in
     tx_view tx = Normal t ->
     RawSend.find_from accounts tx = Normal account ->
     RawSend.not_always options = false ∨ account = None ->
     RawSend.shouldImpersonate accounts options (tx_from t) = true ->
     w (trace σ) unlock = Abrupt e ->
     run w (RawSend.eth_sendTransaction accounts options params) σ
     = (Abrupt e, record_call unlock σ))
  ∧ (∀ (w : world) accounts options params t account viemTx clients e σ σ1,
       let tx := nth 0 params Undefined in
       let unlock := impersonateAccount (tx_from t) in
       tx_view tx = Normal t ->
       (ClientMediated.strict options = true ->
        ClientMediated.validateTransaction tx = Normal ()) ->
       ClientMediated.toViemTransaction tx = Normal viemTx ->
       ClientMediated.find_from accounts tx = Normal account ->
       run w ClientMediated.getClients σ = (Normal clients, σ1) ->
       ClientMediated.not_always options = false ∨ account = None ->
       ClientMediated.shouldImpersonate accounts options (tx_from t)
       = Normal true ->
       w (trace σ1) unlock = Abrupt e ->
       run w (ClientMediated.eth_sendTransaction accounts options params) σ
       = (Abrupt e, record_call unlock σ1)).
Proof.
  split.
  - intros w accounts options params t account e σ tx unlock
      Hview Hfind Hunused Hshould Hunlock.
    rewrite RawSend_send. lazy zeta. fold tx. rewrite Hfind.
    assert (Hnone : (if RawSend.not_always options then account else None)
                    = None) by (destruct Hunused as [-> | ->]; [done |];
                                by destruct (RawSend.not_always options)).
    rewrite Hnone.
    destruct (RawSend.impersonate options) as [mode|] eqn:Himp.
    + rewrite Hview, Hshould, run_impersonate_then_forward.
      fold unlock. by rewrite Hunlock.
    + unfold RawSend.shouldImpersonate in Hshould.
      by rewrite Himp in Hshould.
  - intros w accounts options params t account viemTx clients e σ σ1 tx unlock
      Hview Hvalid Hviem Hfind Hclients Hunused Hshould Hunlock.
    rewrite ClientMediated_send. lazy zeta. fold tx.
    rewrite Hviem, Hfind, Hclients.
    assert (Hnone :
      (if ClientMediated.not_always options then account else None) = None)
      by (destruct Hunused as [-> | ->]; [done |];
          by destruct (ClientMediated.not_always options)).
    rewrite Hnone.
    assert (Hpass :
      (if ClientMediated.strict options
       then ClientMediated.validateTransaction tx else Normal ())
      = Normal ())
      by (destruct (ClientMediated.strict options); [by apply Hvalid | done]).
    rewrite Hpass.
    destruct (ClientMediated.impersonate options) as [mode|] eqn:Himp.
    + rewrite Hview, Hshould, run_impersonate_then_forward.
      fold unlock. by rewrite Hunlock.
    + unfold ClientMediated.shouldImpersonate in Hshould.
      by rewrite Himp in Hshould.
Qed.

Lemma refused_impersonation_is_not_forwarded_witness :
  let request := TxObj (Fixture.transfer Fixture.addr0) in
  run Fixture.refusing
    (RawSend.eth_sendTransaction [Fixture.account0]
       (Fixture.raw_options (Some mode_always)) [request]) fresh
  = (Abrupt (Foreign "impersonation refused"),
     record_call (impersonateAccount (Some Fixture.addr0)) fresh)
  ∧ trace (run Fixture.refusing
             (ClientMediated.eth_sendTransaction [Fixture.account0]
                (Fixture.client_options (Some mode_always) true)
                [request]) fresh).2
    = [provider_request "eth_chainId" None;
       impersonateAccount (Some Fixture.addr0)].
Proof.
  intros request. split.
  - apply (proj1 refused_impersonation_is_not_forwarded Fixture.refusing
             [Fixture.account0] (Fixture.raw_options (Some mode_always))
             [request] (Fixture.transfer Fixture.addr0)
             (Some Fixture.account0) _ fresh
             eq_refl eq_refl (or_introl eq_refl) eq_refl eq_refl).
  - rewrite (proj2 refused_impersonation_is_not_forwarded Fixture.refusing
               [Fixture.account0]
               (Fixture.client_options (Some mode_always) true)
               [request] (Fixture.transfer Fixture.addr0)
               (Some Fixture.account0) _ _ _ fresh _
               eq_refl (fun _ => eq_refl) eq_refl eq_refl eq_refl
               (or_introl eq_refl) eq_refl eq_refl).
    reflexivity.
Defined.

(** X18: in the raw-submission revision, when the signer of the local
    account rejects, the handler rejects with the same error and nothing
    is submitted to the provider. *)
Theorem unsigned_transaction_is_not_submitted (w : world) accounts options
    params account parsed (e : error) (σ : store) :
  let tx := nth 0 params Undefined in
  RawSend.find_from accounts tx = Normal (Some account) ->
  RawSend.not_always options = true ->
  RawSend.parseTxParams tx = Normal parsed ->
  w (trace σ) (signTransaction account parsed) = Abrupt e ->
  run w (RawSend.eth_sendTransaction accounts options params) σ
  = (Abrupt e, record_call (signTransaction account parsed) σ).
Proof.
  intros tx Hfind Hmode Hparsed Hsign.
  rewrite RawSend_send. lazy zeta. fold tx.
  rewrite Hfind, Hmode, Hparsed. run_step. by rewrite Hsign.
Qed.

Lemma unsigned_transaction_is_not_submitted_witness :
  (run Fixture.unsigned
     (RawSend.eth_sendTransaction [Fixture.account0] (Fixture.raw_options None)
        [TxObj (Fixture.transfer Fixture.addr0)]) fresh).1
  = Abrupt (Foreign "signing refused")
  ∧ length (trace (run Fixture.unsigned
                     (RawSend.eth_sendTransaction [Fixture.account0]
                        (Fixture.raw_options None)
                        [TxObj (Fixture.transfer Fixture.addr0)]) fresh).2)
    = 1%nat.
Proof.
  rewrite (unsigned_transaction_is_not_submitted Fixture.unsigned
             [Fixture.account0] (Fixture.raw_options None)
             [TxObj (Fixture.transfer Fixture.addr0)] Fixture.account0 _ _
             fresh eq_refl eq_refl eq_refl eq_refl).
  by split.
Defined.

(** X19: [eth_signTransaction] of the raw-submission revision has the
    local account sign the normalized transaction with the decoded [value]
    of the request (none when the request has none) and every other
    field as normalized; it settles as the signer does and asks the
    provider for nothing. *)
Theorem eth_signTransaction_signs_the_value (w : world) accounts params
    (t : EIP1193TransactionData) account parsed (v : option Z) (σ : store) :
  let tx := nth 0 params Undefined in
  tx_view tx = Normal t ->
  RawSend.find_from accounts tx = Normal (Some account) ->
  RawSend.parseTxParams tx = Normal parsed ->
  BigInt_if_truthy (tx_value t) = Normal v ->
  ∃ signed,
    run w (RawSend.eth_signTransaction accounts params) σ
    = (w (trace σ) (signTransaction account signed),
       record_call (signTransaction account signed) σ)
    ∧ value signed = v
    ∧ type_ signed = type_ parsed ∧ to signed = to parsed
    ∧ data signed = data parsed ∧ gas signed = gas parsed
    ∧ nonce signed = nonce parsed ∧ chainId signed = chainId parsed
    ∧ accessList signed = accessList parsed
    ∧ gasPrice signed = gasPrice parsed
    ∧ maxFeePerGas signed = maxFeePerGas parsed
    ∧ maxPriorityFeePerGas signed = maxPriorityFeePerGas parsed.
Proof.
  intros tx Hview Hfind Hparsed Hvalue.
  exists (from_option (RawSend.with_value parsed) parsed v).
  split.
  - unfold RawSend.eth_signTransaction. fold tx.
    run_step. rewrite Hfind. run_step. rewrite Hparsed.
    run_step. rewrite Hview. run_step. rewrite Hvalue. apply run_await.
  - destruct v as [z|]; simpl; repeat split; try done.
    apply (parseTxParams_value _ _ Hparsed).
Qed.

Lemma eth_signTransaction_signs_the_value_witness :
  ∃ signed,
    run Fixture.node
      (RawSend.eth_signTransaction [Fixture.account0]
         [TxObj (Fixture.transfer Fixture.addr0)]) fresh
    = (Normal (Str "0x02f8"),
       record_call (signTransaction Fixture.account0 signed) fresh)
    ∧ value signed = Some 16%Z.
Proof.
  destruct (eth_signTransaction_signs_the_value Fixture.node
              [Fixture.account0] [TxObj (Fixture.transfer Fixture.addr0)]
              (Fixture.transfer Fixture.addr0) Fixture.account0 _ (Some 16%Z)
              fresh eq_refl eq_refl eq_refl eq_refl)
    as (signed & Hrun & Hvalue & _).
  exists signed. by split.
Defined.

(** *** A send without a transaction *)

(** X20: [eth_sendTransaction] without parameters, in the raw-submission
    revision, calls no one.  It fails with ["Account not available"] when
    the registry is empty and no impersonation is configured, and with a
    [TypeError] (reading [from] of [undefined]) in every other
    configuration. *)
Theorem RawSend_send_without_transaction (w : world) interp accounts options
    (σ : store) :
  run w (RawSend.request interp accounts options "eth_sendTransaction" None) σ
  = (Abrupt match accounts, RawSend.impersonate options with
            | [], None => Error "Account not available"
            | _, _ => TypeError "Cannot read properties of undefined"
            end, σ).
Proof.
  unfold RawSend.request, property, RawSend.handlers, spread.
  erewrite lookup_union_Some_l by reflexivity.
  cbn [snd]. rewrite RawSend_send. lazy zeta.
  cbn [default from_option id nth].
  destruct accounts as [|a accounts]; [|reflexivity].
  cbn [RawSend.find_from Array_find].
  destruct (RawSend.not_always options);
    by destruct (RawSend.impersonate options).
Qed.
